(** * The OpenAI translation adapter and the adapter factory

    A shallow embedding of [openai-content-generator.ts] (the class
    [OpenAIContentGenerator]) and of [adapter-factory.ts] (the registry
    [SUPPORTED_MODELS] and the class [AdapterFactory]).

    Conventions of the embedding:
    - a JavaScript string is a [string]; [String.length] stands for the
      [.length] of the source (one character per code unit);
    - an optional or nullable field is an [option]; where the source
      distinguishes [null] from [undefined] the type keeps both;
    - code under [try]/[catch] lives in the [Outcome] monad, a thrown value
      being a [Thrown];
    - the vendor client is a record of functions: what the network answers
      is a parameter of every operation, never assumed;
    - an array that the source fills with [push] is threaded through the
      statements as a list that grows at its end. *)

From Stdlib Require Import String Ascii List Arith Lia Bool DecimalString.
From Stdlib Require Import Floats.PrimFloat.
Import ListNotations.
Open Scope string_scope.

Set Implicit Arguments.

(** ** JavaScript idioms *)

(** Truthiness of a string value: only the empty string is falsy. *)
Definition truthy (s : string) : bool := negb (s =? "").

(** Truthiness of an optional string field ([undefined] is falsy). *)
Definition truthy_opt (o : option string) : bool :=
  match o with
  | Some s => truthy s
  | None => false
  end.

(** [Array.prototype.push], on the list that stands for the array. *)
Definition push {A : Type} (arr : list A) (x : A) : list A := arr ++ [x].

(** [Array.prototype.join('')]. *)
Definition join_empty (l : list string) : string := String.concat "" l.

(** [Array.prototype.includes] on strings. *)
Fixpoint includes (l : list string) (x : string) : bool :=
  match l with
  | [] => false
  | y :: l' => (y =? x) || includes l' x
  end.

(** Template rendering of a non-negative integer. *)
Definition string_of_nat (n : nat) : string :=
  NilEmpty.string_of_uint (Nat.to_uint n).

(** [Math.ceil(n / 4)] on a length. *)
Definition ceil_quarter (n : nat) : nat :=
  n / 4 + (if Nat.eqb (n mod 4) 0 then 0 else 1).

(** ** Thrown values and outcomes *)

(** What a [catch] clause can receive: the vendor's [OpenAI.APIError]
    (an [Error] with a [status], which may be [undefined]), any other
    [Error], or a value that is no [Error] at all, kept as the text
    [String(value)] gives for it. *)
Inductive Thrown : Type :=
| APIError (message : string) (status : option nat)
| PlainError (message : string)
| NonError (rendering : string).

Inductive Outcome (A : Type) : Type :=
| Returned (a : A)
| Threw (e : Thrown).

Arguments Returned {A} a.
Arguments Threw {A} e.

Definition bind {A B : Type} (m : Outcome A) (k : A -> Outcome B) : Outcome B :=
  match m with
  | Returned a => k a
  | Threw e => Threw e
  end.

(** [try { body } catch (error) { throw handler(error) }]. *)
Definition try_catch {A : Type} (body : Outcome A) (handler : Thrown -> Thrown)
  : Outcome A :=
  match body with
  | Returned a => Returned a
  | Threw e => Threw (handler e)
  end.

Declare Scope outcome_scope.
Delimit Scope outcome_scope with outcome.
Notation "x <- m ;; k" := (bind m (fun x => k))
  (at level 61, m at next level, right associativity) : outcome_scope.

(** [error instanceof Error ? error.message : String(error)]. *)
Definition message_or_string (error : Thrown) : string :=
  match error with
  | APIError message _ => message
  | PlainError message => message
  | NonError rendering => rendering
  end.

(** ** The neutral (Gemini) content model *)

(** A [Part] object; only its optional [text] matters to the adapter. *)
Record Part : Type := mkPart { text : option string }.

(** [PartUnion = Part | string]. *)
Inductive PartUnion : Type :=
| PartStr (s : string)
| PartObj (p : Part).

(** A [Content] object: optional [role], optional [parts]. *)
Record Content : Type := mkContent {
  role : option string;
  parts : option (list PartUnion)
}.

(** The members of [ContentUnion] and [ContentListUnion] that are not
    arrays: a string, a bare [Part] (an object without [parts]) or a
    [Content]. *)
Inductive ContentItem : Type :=
| ItemStr (s : string)
| ItemPart (p : Part)
| ItemContent (c : Content).

(** [ContentUnion = Content | PartUnion[] | PartUnion]. *)
Inductive ContentUnion : Type :=
| OneItem (i : ContentItem)
| PartArray (ps : list PartUnion).

(** [ContentListUnion = Content | Content[] | PartUnion | PartUnion[]]:
    at run time either an array, whose elements are items, or one item. *)
Inductive ContentListUnion : Type :=
| Single (i : ContentItem)
| Many (l : list ContentItem).

Record GenerateContentConfig : Type := mkConfig {
  systemInstruction : option ContentUnion
}.

Record GenerateContentParameters : Type := mkGenerate {
  config : option GenerateContentConfig;
  contents : ContentListUnion
}.

Record CountTokensParameters : Type := mkCount {
  count_contents : ContentListUnion
}.

Record EmbedContentParameters : Type := mkEmbed {
  embed_contents : ContentListUnion
}.

Record UsageMetadata : Type := mkUsageMetadata {
  promptTokenCount : nat;
  candidatesTokenCount : nat;
  totalTokenCount : nat
}.

Record Candidate : Type := mkCandidate {
  content : Content;
  finishReason : option string;
  index : nat
}.

Record GenerateContentResponse : Type := mkResponse {
  candidates : list Candidate;
  usageMetadata : option UsageMetadata
}.

Record CountTokensResponse : Type := mkCountResponse {
  totalTokens : nat
}.

Record ContentEmbedding : Type := mkContentEmbedding {
  values : list float
}.

Record EmbedContentResponse : Type := mkEmbedResponse {
  embeddings : list ContentEmbedding
}.

(** ** The native (OpenAI) model *)

Record ChatCompletionMessageParam : Type := mkMessage {
  msg_role : string;
  msg_content : string
}.

(** A native finish reason: the field may be absent, [null] or a string. *)
Inductive NativeReason : Type :=
| ReasonAbsent
| ReasonNull
| ReasonStr (s : string).

Record CompletionUsage : Type := mkUsage {
  prompt_tokens : nat;
  completion_tokens : nat;
  total_tokens : nat
}.

(** A choice of a completion: [message.content] is [string | null]. *)
Record Choice : Type := mkChoice {
  message_content : option string;
  finish_reason : NativeReason
}.

Record ChatCompletion : Type := mkCompletion {
  choices : list Choice;
  usage : option CompletionUsage
}.

(** A choice of a streamed chunk: [delta] may be missing, and its
    [content] is [string | null | undefined]. *)
Record Delta : Type := mkDelta { delta_content : option string }.

Record ChunkChoice : Type := mkChunkChoice {
  delta : option Delta;
  chunk_finish_reason : NativeReason
}.

Record ChatCompletionChunk : Type := mkChunk {
  chunk_choices : option (list ChunkChoice)
}.

(** A native stream: the chunks it delivers, then a normal end or a
    thrown value. *)
Record ChunkStream : Type := mkStream {
  stream_chunks : list ChatCompletionChunk;
  stream_failure : option Thrown
}.

Record EmbeddingDatum : Type := mkDatum { embedding : list float }.

Record CreateEmbeddingResponse : Type := mkEmbeddings {
  data : list EmbeddingDatum
}.

(** The vendor client, as the adapter uses it: the model name and the
    payload go in, a result or a thrown value comes out. *)
Record OpenAIClient : Type := mkClient {
  chat_create : string -> list ChatCompletionMessageParam -> Outcome ChatCompletion;
  chat_create_stream : string -> list ChatCompletionMessageParam -> Outcome ChunkStream;
  embeddings_create : string -> string -> Outcome CreateEmbeddingResponse
}.

Record OpenAIContentGenerator : Type := mkGenerator {
  client : OpenAIClient;
  model : string;
  embeddingModel : string
}.

(** ** The adapter: [OpenAIContentGenerator] *)

(** The message of the [TypeError] raised on reading a property of
    [undefined] (the text is the engine's). *)
Definition undefined_read (property : string) : string :=
  "Cannot read properties of undefined (reading '" ++ property ++ "')".

(** [extractTextFromPart]: a string is its own text; an object gives its
    [text] when that is a non-empty string; anything else gives [""]. *)
Definition extractTextFromPart (part : PartUnion) : string :=
  match part with
  | PartStr s => s
  | PartObj p =>
      match text p with
      | Some t => if truthy t then t else ""
      | None => ""
      end
  end.

(** [parts.map(extractTextFromPart).filter(text => text).join('')]. *)
Definition joinPartTexts (ps : list PartUnion) : string :=
  join_empty (filter truthy (map extractTextFromPart ps)).

(** [extractTextFromContent]. *)
Definition extractTextFromContent (c : ContentUnion) : string :=
  match c with
  | OneItem (ItemStr s) => s
  | PartArray ps => joinPartTexts ps
  | OneItem (ItemContent obj) =>
      match parts obj with
      | Some ps => joinPartTexts ps
      | None => ""
      end
  | OneItem (ItemPart _) => ""
  end.

(** [extractRoleFromContent]: the [role] of an object that has one,
    ['user'] otherwise. *)
Definition extractRoleFromContent (c : ContentUnion) : string :=
  match c with
  | OneItem (ItemContent obj) =>
      match role obj with
      | Some r => r
      | None => "user"
      end
  | _ => "user"
  end.

(** Truthiness of a content value: objects and arrays are truthy, a string
    is truthy unless empty. *)
Definition truthy_item (i : ContentItem) : bool :=
  match i with
  | ItemStr s => truthy s
  | _ => true
  end.

Definition truthy_content (c : ContentUnion) : bool :=
  match c with
  | OneItem i => truthy_item i
  | PartArray _ => true
  end.

(** The body shared by the loop over [request.contents] and by the
    single-content branch of [convertToOpenAIMessages]. *)
Definition pushContentMessage (messages : list ChatCompletionMessageParam)
           (item : ContentItem) : list ChatCompletionMessageParam :=
  let text := extractTextFromContent (OneItem item) in
  let role := extractRoleFromContent (OneItem item) in
  if truthy text
  then push messages
            {| msg_role := if role =? "model" then "assistant" else "user";
               msg_content := text |}
  else messages.

(** [convertToOpenAIMessages]. *)
Definition convertToOpenAIMessages (request : GenerateContentParameters)
  : list ChatCompletionMessageParam :=
  let messages := [] in
  let messages :=
    match config request with
    | Some cfg =>
        match systemInstruction cfg with
        | Some instruction =>
            if truthy_content instruction
            then
              let systemContent := extractTextFromContent instruction in
              if truthy systemContent
              then push messages {| msg_role := "system"; msg_content := systemContent |}
              else messages
            else messages
        | None => messages
        end
    | None => messages
    end in
  match contents request with
  | Many l => fold_left pushContentMessage l messages
  | Single item =>
      if truthy_item item then pushContentMessage messages item else messages
  end.

(** [convertFinishReason]: the result is [undefined] ([None]) or one of
    four strings. *)
Definition convertFinishReason (reason : NativeReason) : option string :=
  match reason with
  | ReasonAbsent => None
  | ReasonNull => None
  | ReasonStr s =>
      if negb (truthy s) then None
      else if s =? "stop" then Some "STOP"
      else if s =? "length" then Some "MAX_TOKENS"
      else if s =? "content_filter" then Some "SAFETY"
      else Some "OTHER"
  end.

(** [value || ''] on a nullable string. *)
Definition or_empty (o : option string) : string :=
  match o with
  | Some s => if truthy s then s else ""
  | None => ""
  end.

Definition modelCandidate (t : string) (reason : NativeReason) : Candidate :=
  {| content := {| parts := Some [PartObj {| text := Some t |}];
                   role := Some "model" |};
     finishReason := convertFinishReason reason;
     index := 0 |}.

(** [convertToGeminiResponse]: reading [choices[0].message] throws when
    the native response has no choice. *)
Definition convertToGeminiResponse (response : ChatCompletion)
  : Outcome GenerateContentResponse :=
  match choices response with
  | [] => Threw (PlainError (undefined_read "message"))
  | choice :: _ =>
      let candidate :=
        modelCandidate (or_empty (message_content choice)) (finish_reason choice) in
      Returned
        {| candidates := [candidate];
           usageMetadata :=
             match usage response with
             | Some u =>
                 Some {| promptTokenCount := prompt_tokens u;
                         candidatesTokenCount := completion_tokens u;
                         totalTokenCount := total_tokens u |}
             | None => None
             end |}
  end.

(** [choice.delta?.content]. *)
Definition deltaContent (choice : ChunkChoice) : option string :=
  match delta choice with
  | Some d => delta_content d
  | None => None
  end.

(** [convertStreamChunkToGeminiResponse]. *)
Definition convertStreamChunkToGeminiResponse (chunk : ChatCompletionChunk)
  : Outcome GenerateContentResponse :=
  match chunk_choices chunk with
  | None => Threw (PlainError (undefined_read "0"))
  | Some [] => Threw (PlainError (undefined_read "delta"))
  | Some (choice :: _) =>
      let candidate :=
        modelCandidate (or_empty (deltaContent choice)) (chunk_finish_reason choice) in
      Returned {| candidates := [candidate]; usageMetadata := None |}
  end.

Definition generateContentPrefix : string := "OpenAI API调用失败: ".
Definition generateContentStreamPrefix : string := "OpenAI流式API调用失败: ".

(** The [catch] clause of [generateContent]. *)
Definition wrapGenerateError (error : Thrown) : Thrown :=
  PlainError (generateContentPrefix ++ message_or_string error).

(** The [catch] clause of the generator of [generateContentStream]. *)
Definition wrapStreamError (error : Thrown) : Thrown :=
  PlainError (generateContentStreamPrefix ++ message_or_string error).

(** [handleError]. *)
Definition handleError (error : Thrown) : Thrown :=
  match error with
  | APIError message status =>
      PlainError ("OpenAI API Error: " ++ message ++ " (" ++
                  match status with
                  | Some n => string_of_nat n
                  | None => "undefined"
                  end ++ ")")
  | PlainError message => PlainError message
  | NonError rendering => PlainError ("Unknown OpenAI error: " ++ rendering)
  end.

(** [generateContent]. *)
Definition generateContent (self : OpenAIContentGenerator)
           (request : GenerateContentParameters)
  : Outcome GenerateContentResponse :=
  try_catch
    (let messages := convertToOpenAIMessages request in
     response <- chat_create (client self) (model self) messages ;;
     convertToGeminiResponse response)%outcome
    wrapGenerateError.

(** What consuming the generator of [generateContentStream] to its end
    shows: the responses yielded, in order, then a normal end or the error
    raised. *)
Record StreamRun : Type := mkRun {
  yielded : list GenerateContentResponse;
  raised : option Thrown
}.

(** The [for await] loop over the native stream, inside the [try]. *)
Fixpoint consumeChunks (chunks : list ChatCompletionChunk)
         (failure : option Thrown) : StreamRun :=
  match chunks with
  | [] => {| yielded := []; raised := failure |}
  | chunk :: rest =>
      match chunk_choices chunk with
      | Some (choice :: _) =>
          if truthy_opt (deltaContent choice)
          then
            match convertStreamChunkToGeminiResponse chunk with
            | Returned r =>
                let run := consumeChunks rest failure in
                {| yielded := r :: yielded run; raised := raised run |}
            | Threw e => {| yielded := []; raised := Some e |}
            end
          else consumeChunks rest failure
      | _ => consumeChunks rest failure
      end
  end.

(** [generateContentStream]. *)
Definition generateContentStream (self : OpenAIContentGenerator)
           (request : GenerateContentParameters) : StreamRun :=
  let messages := convertToOpenAIMessages request in
  match chat_create_stream (client self) (model self) messages with
  | Threw e => {| yielded := []; raised := Some (wrapStreamError e) |}
  | Returned stream =>
      let run := consumeChunks (stream_chunks stream) (stream_failure stream) in
      {| yielded := yielded run; raised := option_map wrapStreamError (raised run) |}
  end.

(** [Array.isArray(request.contents) ? request.contents : [request.contents]]. *)
Definition contentsArray (c : ContentListUnion) : list ContentItem :=
  match c with
  | Many l => l
  | Single i => [i]
  end.

(** The inner loop of [extractTextFromRequest]: only an object part with a
    non-empty [text] appends, and it appends [part.text + ' ']. *)
Definition appendPartText (acc : string) (part : PartUnion) : string :=
  match part with
  | PartObj p =>
      match text p with
      | Some t => if truthy t then acc ++ (t ++ " ") else acc
      | None => acc
      end
  | PartStr _ => acc
  end.

(** The outer loop of [extractTextFromRequest]: only an object that has a
    [parts] array is scanned. *)
Definition appendContentText (acc : string) (item : ContentItem) : string :=
  match item with
  | ItemContent c =>
      match parts c with
      | Some ps => fold_left appendPartText ps acc
      | None => acc
      end
  | _ => acc
  end.

(** [extractTextFromRequest]. *)
Definition extractTextFromRequest (request : CountTokensParameters) : string :=
  fold_left appendContentText (contentsArray (count_contents request)) "".

(** [countTokens]. *)
Definition countTokens (self : OpenAIContentGenerator)
           (request : CountTokensParameters) : Outcome CountTokensResponse :=
  try_catch
    (let text := extractTextFromRequest request in
     let estimatedTokens := ceil_quarter (String.length text) in
     Returned {| totalTokens := estimatedTokens |})
    handleError.

(** The inner loop of [extractTextFromEmbedRequest]: [Some t] when the
    loop returns [t], [None] when it runs to its end. *)
Fixpoint firstTextOfParts (ps : list PartUnion) : option string :=
  match ps with
  | [] => None
  | PartObj p :: rest =>
      match text p with
      | Some t => if truthy t then Some t else firstTextOfParts rest
      | None => firstTextOfParts rest
      end
  | PartStr _ :: rest => firstTextOfParts rest
  end.

(** The outer loop of [extractTextFromEmbedRequest]. *)
Fixpoint firstTextOfContents (items : list ContentItem) : option string :=
  match items with
  | [] => None
  | ItemContent c :: rest =>
      match parts c with
      | Some ps =>
          match firstTextOfParts ps with
          | Some t => Some t
          | None => firstTextOfContents rest
          end
      | None => firstTextOfContents rest
      end
  | _ :: rest => firstTextOfContents rest
  end.

(** [extractTextFromEmbedRequest]. *)
Definition extractTextFromEmbedRequest (request : EmbedContentParameters) : string :=
  match firstTextOfContents (contentsArray (embed_contents request)) with
  | Some t => t
  | None => ""
  end.

(** [response.data[0]?.embedding || []]. *)
Definition firstEmbedding (response : CreateEmbeddingResponse) : list float :=
  match data response with
  | d :: _ => embedding d
  | [] => []
  end.

(** [embedContent]. *)
Definition embedContent (self : OpenAIContentGenerator)
           (request : EmbedContentParameters) : Outcome EmbedContentResponse :=
  try_catch
    (let text := extractTextFromEmbedRequest request in
     response <- embeddings_create (client self) (embeddingModel self) text ;;
     Returned {| embeddings := [ {| values := firstEmbedding response |} ] |})%outcome
    handleError.

(** ** Construction: the constructor and [createOpenAIContentGenerator] *)

(** [a || b] on an optional string and a string. *)
Definition or_else (a : option string) (b : string) : string :=
  match a with
  | Some s => if truthy s then s else b
  | None => b
  end.

(** A parameter with a default value: the default is taken only when the
    argument is [undefined]. *)
Definition defaulted (argument : option string) (default : string) : string :=
  match argument with
  | Some s => s
  | None => default
  end.

(** The options of [new OpenAI({apiKey, baseURL})]. *)
Record ClientOptions : Type := mkClientOptions {
  option_apiKey : string;
  option_baseURL : option string
}.

(** The private fields of an [OpenAIContentGenerator] once its constructor
    has run; the client is described by the options it was built from. *)
Record GeneratorFields : Type := mkFields {
  clientOptions : ClientOptions;
  field_model : string;
  field_embeddingModel : string
}.

(** The constructor of [OpenAIContentGenerator]. *)
Definition newOpenAIContentGenerator (apiKey : string)
           (model embeddingModel baseURL : option string) : GeneratorFields :=
  {| clientOptions := {| option_apiKey := apiKey; option_baseURL := baseURL |};
     field_model := defaulted model "gpt-4";
     field_embeddingModel := defaulted embeddingModel "text-embedding-ada-002" |}.

(** [createOpenAIContentGenerator] of [openai-content-generator.ts]: the
    arguments go to the constructor as they are. *)
Definition createOpenAIContentGenerator (apiKey : string)
           (model embeddingModel baseURL : option string) : GeneratorFields :=
  newOpenAIContentGenerator apiKey model embeddingModel baseURL.

(** [createOpenAIContentGenerator] of [simple-factory.ts]: it has the
    defaults of the constructor on its own parameters. *)
Definition simpleCreateOpenAIContentGenerator (apiKey : string)
           (model embeddingModel baseURL : option string) : GeneratorFields :=
  newOpenAIContentGenerator apiKey
                            (Some (defaulted model "gpt-4"))
                            (Some (defaulted embeddingModel "text-embedding-ada-002"))
                            baseURL.

(** The instance at work: [connect] stands for the vendor's
    [new OpenAI(options)]. *)
Definition instantiate (connect : ClientOptions -> OpenAIClient)
           (fields : GeneratorFields) : OpenAIContentGenerator :=
  {| client := connect (clientOptions fields);
     model := field_model fields;
     embeddingModel := field_embeddingModel fields |}.

(** ** The registry and the factory: [adapter-factory.ts] *)

Module AdapterFactory.

(** The string enum [LLMProvider]. *)
Inductive LLMProvider : Type := GEMINI | OPENAI | VERTEX_AI.

(** The run-time value of each member. *)
Definition provider_value (p : LLMProvider) : string :=
  match p with
  | GEMINI => "gemini"
  | OPENAI => "openai"
  | VERTEX_AI => "vertex-ai"
  end.

(** [SUPPORTED_MODELS], as [Object.entries] enumerates it: its keys are
    no integer indices, so the order is the order of declaration. *)
Definition SUPPORTED_MODELS : list (LLMProvider * list string) :=
  [ (GEMINI, ["gemini-2.5-pro"; "gemini-2.5-flash"; "gemini-1.5-pro"; "gemini-1.5-flash"]);
    (OPENAI, ["gpt-4"; "gpt-4-turbo"; "gpt-4o"; "gpt-4o-mini"; "gpt-3.5-turbo"]);
    (VERTEX_AI, ["gemini-2.5-pro"; "gemini-2.5-flash"; "gemini-1.5-pro"; "gemini-1.5-flash"]) ].

(** The loop of [inferProviderFromModel] over the entries. *)
Fixpoint inferFromEntries (entries : list (LLMProvider * list string))
         (model : string) : option LLMProvider :=
  match entries with
  | [] => None
  | (provider, models) :: rest =>
      if includes models model then Some provider
      else inferFromEntries rest model
  end.

(** [inferProviderFromModel]; [None] is the [null] of the source. *)
Definition inferProviderFromModel (model : string) : option LLMProvider :=
  inferFromEntries SUPPORTED_MODELS model.

(** [getSupportedProviders]: [Object.values(LLMProvider)]. *)
Definition getSupportedProviders : list string :=
  map provider_value [GEMINI; OPENAI; VERTEX_AI].

(** The fields of [AdapterConfig] that [validateConfig] reads, as they
    are at run time: each may be missing, and [provider] may hold a
    string that is no member of the enum. *)
Record AdapterConfig : Type := mkAdapterConfig {
  provider : option string;
  apiKey : option string;
  model : option string
}.

Record ValidationResult : Type := mkValidation {
  valid : bool;
  errors : list string
}.

(** [validateConfig]. *)
Definition validateConfig (config : AdapterConfig) : ValidationResult :=
  let errors := [] in
  let errors :=
    if negb (truthy_opt (provider config))
    then push errors "Provider is required" else errors in
  let errors :=
    if negb (truthy_opt (apiKey config))
    then push errors "API key is required" else errors in
  let errors :=
    if negb (truthy_opt (model config))
    then push errors "Model is required" else errors in
  let errors :=
    match provider config with
    | Some p =>
        if truthy p && negb (includes getSupportedProviders p)
        then push errors ("Unsupported provider: " ++ p) else errors
    | None => errors
    end in
  {| valid := Nat.eqb (List.length errors) 0; errors := errors |}.

(** Equality of providers, for the lookup by key. *)
Definition provider_eqb (p q : LLMProvider) : bool :=
  match p, q with
  | GEMINI, GEMINI => true
  | OPENAI, OPENAI => true
  | VERTEX_AI, VERTEX_AI => true
  | _, _ => false
  end.

(** [object[provider]] on an object seen as its entries: [None] is
    [undefined]. *)
Fixpoint lookupProvider {A : Type} (entries : list (LLMProvider * A))
         (p : LLMProvider) : option A :=
  match entries with
  | [] => None
  | (q, a) :: rest => if provider_eqb q p then Some a else lookupProvider rest p
  end.

(** [DEFAULT_EMBEDDING_MODELS]. *)
Definition DEFAULT_EMBEDDING_MODELS : list (LLMProvider * string) :=
  [ (GEMINI, "gemini-embedding-001");
    (OPENAI, "text-embedding-ada-002");
    (VERTEX_AI, "gemini-embedding-001") ].

(** [isModelSupported]. *)
Definition isModelSupported (p : LLMProvider) (m : string) : bool :=
  match lookupProvider SUPPORTED_MODELS p with
  | Some supportedModels => includes supportedModels m
  | None => false
  end.

(** [getSupportedModels]. *)
Definition getSupportedModels (p : LLMProvider) : list string :=
  match lookupProvider SUPPORTED_MODELS p with
  | Some supportedModels => supportedModels
  | None => []
  end.

(** [AdapterConfig] as it is declared: the required fields are there and
    [provider] is a member of the enum. *)
Record DeclaredAdapterConfig : Type := mkDeclaredConfig {
  declared_provider : LLMProvider;
  declared_apiKey : string;
  declared_model : string;
  declared_embeddingModel : option string;
  declared_vertexai : option bool;
  declared_baseUrl : option string
}.

(** The same configuration as [validateConfig] reads it. *)
Definition asAdapterConfig (c : DeclaredAdapterConfig) : AdapterConfig :=
  {| provider := Some (provider_value (declared_provider c));
     apiKey := Some (declared_apiKey c);
     model := Some (declared_model c) |}.

(** What a call of [createAdapter] does: the lines it gives to
    [console.warn], and the adapter it returns or the error it throws. *)
Record Creation : Type := mkCreation {
  warnings : list string;
  created : Outcome GeneratorFields
}.

(** [createAdapter]. *)
Definition createAdapter (c : DeclaredAdapterConfig) : Creation :=
  if negb (truthy (declared_apiKey c))
  then {| warnings := [];
          created :=
            Threw (PlainError ("API key is required for " ++
                               provider_value (declared_provider c) ++ " provider")) |}
  else
    let warnings :=
      if negb (isModelSupported (declared_provider c) (declared_model c))
      then [ "Model " ++ declared_model c ++
             " may not be officially supported for " ++
             provider_value (declared_provider c) ]
      else [] in
    let effectiveEmbeddingModel :=
      if truthy_opt (declared_embeddingModel c)
      then declared_embeddingModel c
      else lookupProvider DEFAULT_EMBEDDING_MODELS (declared_provider c) in
    match declared_provider c with
    | OPENAI =>
        {| warnings := warnings;
           created :=
             Returned (newOpenAIContentGenerator
                         (declared_apiKey c) (Some (declared_model c))
                         effectiveEmbeddingModel None) |}
    | _ =>
        {| warnings := warnings;
           created :=
             Threw (PlainError ("Unsupported LLM provider: " ++
                                provider_value (declared_provider c))) |}
    end.

End AdapterFactory.

(** ** Configuration and dispatch: [contentGenerator.ts] *)

Module CoreContentGenerator.

(** The string enum [AuthType]. *)
Inductive AuthType : Type :=
| LOGIN_WITH_GOOGLE_PERSONAL
| USE_GEMINI
| USE_VERTEX_AI
| USE_OPENAI.

Definition auth_value (a : AuthType) : string :=
  match a with
  | LOGIN_WITH_GOOGLE_PERSONAL => "oauth-personal"
  | USE_GEMINI => "gemini-api-key"
  | USE_VERTEX_AI => "vertex-ai"
  | USE_OPENAI => "openai-api-key"
  end.

(** [config/models.ts]. *)
Definition DEFAULT_GEMINI_MODEL : string := "gemini-2.5-pro".
Definition DEFAULT_OPENAI_MODEL : string := "gpt-4".
Definition DEFAULT_OPENAI_EMBEDDING_MODEL : string := "text-embedding-ada-002".

Definition DEFAULT_MODELS_BY_AUTH_TYPE (a : AuthType) : string :=
  match a with
  | LOGIN_WITH_GOOGLE_PERSONAL => DEFAULT_GEMINI_MODEL
  | USE_GEMINI => DEFAULT_GEMINI_MODEL
  | USE_VERTEX_AI => DEFAULT_GEMINI_MODEL
  | USE_OPENAI => DEFAULT_OPENAI_MODEL
  end.

(** What the two functions read of the process: the environment
    variables, each set or not, and the constants of [process]. *)
Record Process : Type := mkProcess {
  GEMINI_API_KEY : option string;
  GOOGLE_API_KEY : option string;
  OPENAI_API_KEY : option string;
  OPENAI_MODEL : option string;
  OPENAI_BASE_URL : option string;
  OPENAI_EMBEDDING_MODEL : option string;
  GOOGLE_CLOUD_PROJECT : option string;
  GOOGLE_CLOUD_LOCATION : option string;
  CLI_VERSION : option string;
  process_version : string;
  process_platform : string;
  process_arch : string
}.

Record ContentGeneratorConfig : Type := mkGeneratorConfig {
  model : string;
  apiKey : option string;
  vertexai : option bool;
  authType : option AuthType;
  openaiBaseURL : option string;
  openaiEmbeddingModel : option string
}.

Definition is_auth (a : option AuthType) (b : AuthType) : bool :=
  match a, b with
  | Some LOGIN_WITH_GOOGLE_PERSONAL, LOGIN_WITH_GOOGLE_PERSONAL => true
  | Some USE_GEMINI, USE_GEMINI => true
  | Some USE_VERTEX_AI, USE_VERTEX_AI => true
  | Some USE_OPENAI, USE_OPENAI => true
  | _, _ => false
  end.

(** [createContentGeneratorConfig]. [getEffectiveModel] is the function
    of [modelCheck.js], a parameter here; [getModel] is the value of
    [config?.getModel?.()], [None] when there is no such call to make. *)
Definition createContentGeneratorConfig
           (getEffectiveModel : string -> string -> string) (env : Process)
           (model : option string) (authType : option AuthType)
           (getModel : option string) : ContentGeneratorConfig :=
  let effectiveModel :=
    or_else getModel
            (if is_auth authType USE_OPENAI
             then or_else (OPENAI_MODEL env) (or_else model "gpt-4")
             else or_else model DEFAULT_GEMINI_MODEL) in
  let contentGeneratorConfig :=
    {| model := effectiveModel; authType := authType;
       apiKey := None; vertexai := None;
       openaiBaseURL := None; openaiEmbeddingModel := None |} in
  if is_auth authType LOGIN_WITH_GOOGLE_PERSONAL then contentGeneratorConfig
  else if is_auth authType USE_GEMINI && truthy_opt (GEMINI_API_KEY env)
  then
    {| model := getEffectiveModel (or_empty (GEMINI_API_KEY env)) effectiveModel;
       authType := authType;
       apiKey := GEMINI_API_KEY env; vertexai := None;
       openaiBaseURL := None; openaiEmbeddingModel := None |}
  else if is_auth authType USE_VERTEX_AI && truthy_opt (GOOGLE_API_KEY env)
          && truthy_opt (GOOGLE_CLOUD_PROJECT env)
          && truthy_opt (GOOGLE_CLOUD_LOCATION env)
  then
    {| model := getEffectiveModel (or_empty (GOOGLE_API_KEY env)) effectiveModel;
       authType := authType;
       apiKey := GOOGLE_API_KEY env; vertexai := Some true;
       openaiBaseURL := None; openaiEmbeddingModel := None |}
  else if is_auth authType USE_OPENAI && truthy_opt (OPENAI_API_KEY env)
  then
    {| model := effectiveModel; authType := authType;
       apiKey := OPENAI_API_KEY env; vertexai := None;
       openaiBaseURL := OPENAI_BASE_URL env;
       openaiEmbeddingModel := OPENAI_EMBEDDING_MODEL env |}
  else contentGeneratorConfig.

(** The [User-Agent] header of [httpOptions]. *)
Definition userAgent (env : Process) : string :=
  "GeminiCLI/" ++ or_else (CLI_VERSION env) (process_version env) ++
  " (" ++ process_platform env ++ "; " ++ process_arch env ++ ")".

(** The callees of [createContentGenerator] that are outside these
    files. Each is given what the source passes to it and answers with a
    generator or throws: [createCodeAssistContentGenerator(httpOptions,
    authType)], with the [User-Agent] of [httpOptions];
    [new GoogleGenAI({apiKey, vertexai, httpOptions}).models]; and, for
    the fields that [createOpenAIContentGenerator] of [simple-factory.ts]
    settles, the import of that module and the vendor's [new OpenAI]
    that the constructor runs on the client options. *)
Record Callees (G : Type) : Type := mkCallees {
  createCodeAssistContentGenerator : string -> AuthType -> Outcome G;
  newGoogleGenAI : option string -> option bool -> string -> Outcome G;
  buildOpenAIContentGenerator : GeneratorFields -> Outcome G
}.

(** [createContentGenerator]: there is no [try] in it, so what a callee
    throws is what the function throws. *)
Definition createContentGenerator {G : Type} (callees : Callees G)
           (env : Process) (config : ContentGeneratorConfig) : Outcome G :=
  match authType config with
  | Some LOGIN_WITH_GOOGLE_PERSONAL =>
      createCodeAssistContentGenerator callees (userAgent env)
                                       LOGIN_WITH_GOOGLE_PERSONAL
  | Some USE_GEMINI | Some USE_VERTEX_AI =>
      newGoogleGenAI callees
                     (match apiKey config with
                      | Some k => if k =? "" then None else Some k
                      | None => None
                      end)
                     (vertexai config) (userAgent env)
  | Some USE_OPENAI =>
      buildOpenAIContentGenerator callees
        (simpleCreateOpenAIContentGenerator
           (or_else (apiKey config) "")
           (Some (model config))
           (openaiEmbeddingModel config)
           (openaiBaseURL config))
  | None =>
      Threw (PlainError
               "Error creating contentGenerator: Unsupported authType: undefined")
  end.

(** Callees for the examples: the login is refused, the two others
    answer with a line that shows what they were given. *)
Definition tracingCallees : Callees string :=
  {| createCodeAssistContentGenerator :=
       fun _ _ => Threw (PlainError "login refused");
     newGoogleGenAI :=
       fun key _ agent => Returned ("google " ++ or_empty key ++ " " ++ agent);
     buildOpenAIContentGenerator :=
       fun fields => Returned ("openai " ++ option_apiKey (clientOptions fields)) |}.

End CoreContentGenerator.

(** The responses one streamed chunk gives rise to: one when its first
    choice carries a non-empty incremental text, none otherwise. *)
Definition chunkResponses (chunk : ChatCompletionChunk)
  : list GenerateContentResponse :=
  match chunk_choices chunk with
  | Some (choice :: _) =>
      match deltaContent choice with
      | Some t =>
          if t =? "" then []
          else [ {| candidates :=
                      [ {| content :=
                             {| role := Some "model";
                                parts := Some [PartObj {| text := Some t |}] |};
                           finishReason :=
                             convertFinishReason (chunk_finish_reason choice);
                           index := 0 |} ];
                    usageMetadata := None |} ]
      | None => []
      end
  | _ => []
  end.

(** ** The specification's vocabulary

    The definitions below follow the words of the specification, not the
    code; the theorems compare them with the functions above. *)

(** The [text] fields met when scanning the parts of the contents in
    order: the object parts of the content objects that carry [parts]. *)
Definition partTexts (ps : list PartUnion) : list string :=
  flat_map (fun part =>
              match part with
              | PartObj p => match text p with Some t => [t] | None => [] end
              | PartStr _ => []
              end) ps.

Definition scannedTexts (c : ContentListUnion) : list string :=
  flat_map (fun item =>
              match item with
              | ItemContent obj =>
                  match parts obj with Some ps => partTexts ps | None => [] end
              | _ => []
              end) (contentsArray c).

(** "Space-joined": the non-empty texts with one space between
    neighbours. *)
Definition spaceJoined (texts : list string) : string :=
  String.concat " " (filter truthy texts).

(** Each non-empty text followed by one space. *)
Definition spaceTerminated (texts : list string) : string :=
  String.concat "" (map (fun t => t ++ " ") (filter truthy texts)).

(** "The first non-empty text found", [""] when there is none. *)
Definition firstNonEmpty (texts : list string) : string :=
  hd "" (filter truthy texts).

(** "If the system instruction is present and its extracted text is
    non-empty, one system message with that text." *)
Definition specSystemMessages (request : GenerateContentParameters)
  : list ChatCompletionMessageParam :=
  match config request with
  | Some cfg =>
      match systemInstruction cfg with
      | Some instruction =>
          if extractTextFromContent instruction =? "" then []
          else [ {| msg_role := "system";
                    msg_content := extractTextFromContent instruction |} ]
      | None => []
      end
  | None => []
  end.

(** "[assistant] when the content's role is [model], [user] for every
    other role value including unset." *)
Definition specNativeRole (item : ContentItem) : string :=
  match item with
  | ItemContent obj =>
      match role obj with
      | Some r => if r =? "model" then "assistant" else "user"
      | None => "user"
      end
  | _ => "user"
  end.

(** "If the extracted text is empty, skip the content; otherwise emit a
    message." *)
Definition specContentMessages (item : ContentItem)
  : list ChatCompletionMessageParam :=
  if extractTextFromContent (OneItem item) =? "" then []
  else [ {| msg_role := specNativeRole item;
            msg_content := extractTextFromContent (OneItem item) |} ].

(** "Missing or empty". *)
Definition missing (field : option string) : Prop :=
  field = None \/ field = Some "".

(** An item that is an object carrying a [parts] array. *)
Definition carriesParts (item : ContentItem) : bool :=
  match item with
  | ItemContent obj => match parts obj with Some _ => true | None => false end
  | _ => false
  end.

(** ** Concrete inputs of the examples *)

(** [{role: r, parts: [{text: t}]}]. *)
Definition textContent (r : option string) (t : string) : ContentItem :=
  ItemContent {| role := r; parts := Some [PartObj {| text := Some t |}] |}.

(** [contents = [{role: 'user', parts: [{text: 'hi'}]}]]. *)
Definition hiRequest : GenerateContentParameters :=
  {| config := None; contents := Many [textContent (Some "user") "hi"] |}.

(** A streamed chunk with one choice: [{delta: {content: t}, finish_reason: r}]. *)
Definition textChunk (t : string) (r : NativeReason) : ChatCompletionChunk :=
  {| chunk_choices :=
       Some [ {| delta := Some {| delta_content := Some t |};
                 chunk_finish_reason := r |} ] |}.

(** Texts "a", "b", "" with finish reasons null, null, "stop". *)
Definition abStream : ChunkStream :=
  {| stream_chunks := [ textChunk "a" ReasonNull;
                        textChunk "b" ReasonNull;
                        textChunk "" (ReasonStr "stop") ];
     stream_failure := None |}.

(** A client with fixed answers. *)
Definition cannedClient (completion : Outcome ChatCompletion)
           (stream : Outcome ChunkStream)
           (embed : string -> Outcome CreateEmbeddingResponse) : OpenAIClient :=
  {| chat_create := fun _ _ => completion;
     chat_create_stream := fun _ _ => stream;
     embeddings_create := fun _ input => embed input |}.

(** A client whose every call is refused with the thrown value [e]. *)
Definition failingClient (e : Thrown) : OpenAIClient :=
  cannedClient (Threw e) (Threw e) (fun _ => Threw e).

(** A client whose embedding call answers one vector for the input "x"
    and an answer without data entry for any other input. *)
Definition xEmbeddingClient : OpenAIClient :=
  cannedClient (Threw (NonError "unused")) (Threw (NonError "unused"))
    (fun input =>
       if input =? "x"
       then Returned {| data := [ {| embedding := [0.5%float; 0.25%float] |} ] |}
       else Returned {| data := [] |}).

Definition generatorOf (c : OpenAIClient) : OpenAIContentGenerator :=
  {| client := c; model := "gpt-4"; embeddingModel := "text-embedding-ada-002" |}.

(** The response a streamed text [t] with finish reason [r] becomes. *)
Definition streamedResponse (t : string) (r : option string)
  : GenerateContentResponse :=
  {| candidates :=
       [ {| content := {| role := Some "model";
                          parts := Some [PartObj {| text := Some t |}] |};
            finishReason := r;
            index := 0 |} ];
     usageMetadata := None |}.

(** * Properties *)

Unset Implicit Arguments.

(** ** Shared lemmas on the JavaScript idioms *)

Lemma truthy_true_iff (s : string) : truthy s = true <-> s <> "".
Proof.
  unfold truthy. destruct (String.eqb_spec s ""); simpl; split; congruence.
Qed.

Lemma truthy_false_iff (s : string) : truthy s = false <-> s = "".
Proof.
  unfold truthy. destruct (String.eqb_spec s ""); simpl; split; congruence.
Qed.

Lemma truthy_opt_false_iff (o : option string) :
  truthy_opt o = false <-> missing o.
Proof.
  unfold missing. destruct o as [s|]; simpl.
  - rewrite truthy_false_iff. split.
    + intros ->. now right.
    + intros [H|H]; congruence.
  - split; auto.
Qed.

Lemma includes_In (l : list string) (x : string) :
  includes l x = true <-> In x l.
Proof.
  induction l as [|y l IH]; simpl.
  - split; [discriminate | tauto].
  - rewrite orb_true_iff, IH, String.eqb_eq. tauto.
Qed.

Lemma includes_not_In (l : list string) (x : string) :
  includes l x = false <-> ~ In x l.
Proof.
  rewrite <- includes_In. destruct (includes l x); split; congruence.
Qed.

Lemma fold_left_push_app {A B : Type} (f : B -> list A) (l : list B) (acc : list A) :
  fold_left (fun acc b => (acc ++ f b)%list) l acc = (acc ++ flat_map f l)%list.
Proof.
  revert acc. induction l as [|b l IH]; intros acc; simpl.
  - now rewrite app_nil_r.
  - now rewrite IH, app_assoc.
Qed.

Ltac case_eqb s t :=
  destruct (String.eqb_spec s t); try congruence.

(** ** Finish reasons *)

(** C1, as the code has it: over every native finish reason (absent,
    null or any string) the conversion gives STOP exactly for "stop",
    MAX_TOKENS exactly for "length", SAFETY exactly for "content_filter",
    no value exactly for null, absent and the empty string, and OTHER
    exactly for every other non-empty string; the comparison is
    case-sensitive and the five cases cover every input. *)
Theorem convertFinishReason_table (reason : NativeReason) :
  (convertFinishReason reason = Some "STOP" <-> reason = ReasonStr "stop") /\
  (convertFinishReason reason = Some "MAX_TOKENS" <-> reason = ReasonStr "length") /\
  (convertFinishReason reason = Some "SAFETY" <-> reason = ReasonStr "content_filter") /\
  (convertFinishReason reason = None <->
     reason = ReasonNull \/ reason = ReasonAbsent \/ reason = ReasonStr "") /\
  (convertFinishReason reason = Some "OTHER" <->
     exists s, reason = ReasonStr s /\ s <> "" /\
               s <> "stop" /\ s <> "length" /\ s <> "content_filter").
Proof.
  destruct reason as [| |s]; simpl.
  - repeat split; try discriminate; auto.
    intros (s & H & _); discriminate.
  - repeat split; try discriminate; auto.
    intros (s & H & _); discriminate.
  - unfold truthy. rewrite negb_involutive.
    case_eqb s "".
    { subst. repeat split; try discriminate; auto.
      intros (s & H & Hne & _). injection H as <-. congruence. }
    case_eqb s "stop".
    { subst. repeat split; try discriminate; auto.
      - intros [H|[H|H]]; discriminate.
      - intros (s & H & _ & Hne & _). injection H as <-. congruence. }
    case_eqb s "length".
    { subst. repeat split; try discriminate; auto.
      - intros [H|[H|H]]; discriminate.
      - intros (s & H & _ & _ & Hne & _). injection H as <-. congruence. }
    case_eqb s "content_filter".
    { subst. repeat split; try discriminate; auto.
      - intros [H|[H|H]]; discriminate.
      - intros (s & H & _ & _ & _ & Hne). injection H as <-. congruence. }
    repeat split; try discriminate; try congruence.
    + intros [H|[H|H]]; congruence.
    + intros _. exists s. repeat split; congruence.
Qed.

Lemma convertFinishReason_table_witness :
  convertFinishReason (ReasonStr "tool_calls") = Some "OTHER" /\
  convertFinishReason (ReasonStr "STOP") = Some "OTHER".
Proof.
  split.
  - apply (convertFinishReason_table (ReasonStr "tool_calls")).
    exists "tool_calls". repeat split; discriminate.
  - apply (convertFinishReason_table (ReasonStr "STOP")).
    exists "STOP". repeat split; discriminate.
Defined.

(** C1 as stated fails at the empty string: it is a non-null string other
    than the three listed, and the conversion gives no value for it. *)
Lemma convertFinishReason_empty_string :
  "" <> "stop" /\ "" <> "length" /\ "" <> "content_filter" /\
  convertFinishReason (ReasonStr "") <> Some "OTHER".
Proof.
  repeat split; discriminate.
Qed.

(** ** Request conversion *)

Lemma pushContentMessage_spec (messages : list ChatCompletionMessageParam)
      (item : ContentItem) :
  pushContentMessage messages item = (messages ++ specContentMessages item)%list.
Proof.
  unfold pushContentMessage, specContentMessages, push, truthy.
  destruct (String.eqb_spec (extractTextFromContent (OneItem item)) ""); simpl.
  - now rewrite app_nil_r.
  - do 3 f_equal.
    destruct item as [s|p|obj]; simpl; try reflexivity.
    destruct (role obj); reflexivity.
Qed.

Lemma fold_pushContentMessage_spec (l : list ContentItem)
      (messages : list ChatCompletionMessageParam) :
  fold_left pushContentMessage l messages =
  (messages ++ flat_map specContentMessages l)%list.
Proof.
  revert messages. induction l as [|item l IH]; intros messages; simpl.
  - now rewrite app_nil_r.
  - now rewrite IH, pushContentMessage_spec, app_assoc.
Qed.

Lemma falsy_item_no_message (item : ContentItem) :
  truthy_item item = false -> specContentMessages item = [].
Proof.
  destruct item as [s|p|obj]; simpl; try discriminate.
  intros H%truthy_false_iff. now subst.
Qed.

Lemma systemMessages_spec (request : GenerateContentParameters) :
  match config request with
  | Some cfg =>
      match systemInstruction cfg with
      | Some instruction =>
          if truthy_content instruction
          then
            if truthy (extractTextFromContent instruction)
            then push [] {| msg_role := "system";
                            msg_content := extractTextFromContent instruction |}
            else []
          else []
      | None => []
      end
  | None => []
  end = specSystemMessages request.
Proof.
  unfold specSystemMessages.
  destruct (config request) as [cfg|]; [|reflexivity].
  destruct (systemInstruction cfg) as [instruction|]; [|reflexivity].
  unfold truthy.
  destruct (truthy_content instruction) eqn:Ht.
  - destruct (extractTextFromContent instruction =? ""); reflexivity.
  - destruct instruction as [[s|p|obj]|ps]; simpl in Ht; try discriminate.
    apply truthy_false_iff in Ht. now subst.
Qed.

(** C4: the native message list is the system message, present exactly
    when the system instruction has a non-empty extracted text, followed
    by the messages of the contents in order, a single content counting
    as a one-element sequence: no message for a content whose extracted
    text is empty, else one message carrying that text, with role
    'assistant' when the content's role is 'model' and 'user' for every
    other role, unset included. *)
Theorem convertToOpenAIMessages_spec (request : GenerateContentParameters) :
  convertToOpenAIMessages request =
  (specSystemMessages request ++
   flat_map specContentMessages (contentsArray (contents request)))%list.
Proof.
  unfold convertToOpenAIMessages.
  rewrite (systemMessages_spec request).
  destruct (contents request) as [item|l]; simpl.
  - rewrite app_nil_r.
    destruct (truthy_item item) eqn:Ht.
    + apply pushContentMessage_spec.
    + rewrite (falsy_item_no_message item Ht). now rewrite app_nil_r.
  - apply fold_pushContentMessage_spec.
Qed.

(** ** Response conversion *)

Lemma convertToGeminiResponse_first_choice (response : ChatCompletion)
      (choice : Choice) (rest : list Choice) :
  choices response = choice :: rest ->
  exists r,
    convertToGeminiResponse response = Returned r /\
    candidates r =
      [modelCandidate (or_empty (message_content choice)) (finish_reason choice)].
Proof.
  intros H. unfold convertToGeminiResponse. rewrite H.
  eexists. split; reflexivity.
Qed.

(** C3, as the code has it: the request [contents = [{role: user, parts:
    [{text: "hi"}]}]] converts to the single native message (user, "hi");
    every native response that carries at least one choice converts to a
    response with exactly one candidate, at index 0 and of role "model",
    however many choices it carries; and when the vendor answers that
    request with such a response whose first choice has finish reason
    "stop", [generateContent] returns a response with exactly one
    candidate, of index 0, finishReason STOP and role "model". *)
Theorem round_trip_hi (self : OpenAIContentGenerator) (response : ChatCompletion)
        (choice : Choice) (rest : list Choice) :
  choices response = choice :: rest ->
  convertToOpenAIMessages hiRequest =
    [ {| msg_role := "user"; msg_content := "hi" |} ] /\
  (exists r c,
      convertToGeminiResponse response = Returned r /\
      candidates r = [c] /\ index c = 0 /\ role (content c) = Some "model") /\
  (finish_reason choice = ReasonStr "stop" ->
   chat_create (client self) (model self)
               [ {| msg_role := "user"; msg_content := "hi" |} ] = Returned response ->
   exists r c,
     generateContent self hiRequest = Returned r /\
     candidates r = [c] /\ index c = 0 /\
     finishReason c = Some "STOP" /\ role (content c) = Some "model").
Proof.
  intros Hchoices.
  destruct (convertToGeminiResponse_first_choice response choice rest Hchoices)
    as (r & Hr & Hc).
  split; [reflexivity|]. split.
  - exists r. eexists. repeat split; eauto.
  - intros Hstop Hcall.
    exists r. eexists. split; [|split; [exact Hc|]].
    + unfold generateContent.
      change (convertToOpenAIMessages hiRequest)
        with [ {| msg_role := "user"; msg_content := "hi" |} ].
      rewrite Hcall. simpl. now rewrite Hr.
    + simpl. rewrite Hstop. repeat split; reflexivity.
Qed.

Lemma round_trip_hi_witness :
  exists r c,
    generateContent
      (generatorOf
         (cannedClient
            (Returned {| choices := [ {| message_content := Some "hello";
                                         finish_reason := ReasonStr "stop" |} ];
                         usage := None |})
            (Threw (NonError "unused")) (fun _ => Threw (NonError "unused"))))
      hiRequest = Returned r /\
    candidates r = [c] /\ index c = 0 /\
    finishReason c = Some "STOP" /\ role (content c) = Some "model".
Proof.
  eapply (round_trip_hi
            (generatorOf
               (cannedClient
                  (Returned {| choices := [ {| message_content := Some "hello";
                                               finish_reason := ReasonStr "stop" |} ];
                               usage := None |})
                  (Threw (NonError "unused")) (fun _ => Threw (NonError "unused"))))
            {| choices := [ {| message_content := Some "hello";
                               finish_reason := ReasonStr "stop" |} ];
               usage := None |}
            {| message_content := Some "hello"; finish_reason := ReasonStr "stop" |}
            []); reflexivity.
Defined.

(** C3 as stated fails for a native response without any choice: the
    conversion throws, and [generateContent] re-raises, so no candidate is
    produced. *)
Lemma convertToGeminiResponse_without_choice :
  (~ exists r, convertToGeminiResponse {| choices := []; usage := None |} = Returned r) /\
  generateContent
    (generatorOf
       (cannedClient (Returned {| choices := []; usage := None |})
                     (Threw (NonError "unused")) (fun _ => Threw (NonError "unused"))))
    hiRequest =
  Threw (PlainError (generateContentPrefix ++ undefined_read "message")).
Proof.
  split.
  - intros (r & H). discriminate.
  - reflexivity.
Qed.

(** ** Streaming *)

Lemma consumeChunks_raised (chunks : list ChatCompletionChunk)
      (failure : option Thrown) :
  raised (consumeChunks chunks failure) = failure.
Proof.
  induction chunks as [|chunk chunks IH]; simpl; [reflexivity|].
  unfold convertStreamChunkToGeminiResponse.
  destruct (chunk_choices chunk) as [[|choice others]|]; try exact IH.
  destruct (truthy_opt (deltaContent choice)); [simpl|]; exact IH.
Qed.

(** C2, as the code has it: for a native stream of three chunks with
    incremental texts "a", "b", "" and finish reasons null, null, "stop",
    [generateContentStream] yields exactly two responses, for "a" and for
    "b", and ends normally; the empty-text chunk is skipped, and the
    second response carries no finishReason, since "stop" came with the
    skipped chunk. *)
Theorem generateContentStream_a_b_empty (self : OpenAIContentGenerator)
        (request : GenerateContentParameters) :
  chat_create_stream (client self) (model self) (convertToOpenAIMessages request)
    = Returned abStream ->
  generateContentStream self request =
    {| yielded := [streamedResponse "a" None; streamedResponse "b" None];
       raised := None |}.
Proof.
  intros H. unfold generateContentStream. rewrite H. reflexivity.
Qed.

Lemma generateContentStream_a_b_empty_witness :
  generateContentStream
    (generatorOf (cannedClient (Threw (NonError "unused")) (Returned abStream)
                               (fun _ => Threw (NonError "unused"))))
    hiRequest =
    {| yielded := [streamedResponse "a" None; streamedResponse "b" None];
       raised := None |}.
Proof.
  apply (generateContentStream_a_b_empty
           (generatorOf (cannedClient (Threw (NonError "unused")) (Returned abStream)
                                      (fun _ => Threw (NonError "unused"))))
           hiRequest).
  reflexivity.
Defined.

(** C2 as stated fails: on that stream the second response yielded does
    not carry finishReason STOP. *)
Lemma generateContentStream_second_not_STOP :
  ~ exists r1 r2 c,
      yielded
        (generateContentStream
           (generatorOf (cannedClient (Threw (NonError "unused")) (Returned abStream)
                                      (fun _ => Threw (NonError "unused"))))
           hiRequest) = [r1; r2] /\
      candidates r2 = [c] /\ finishReason c = Some "STOP".
Proof.
  intros (r1 & r2 & c & Hy & Hc & Hf).
  vm_compute in Hy. injection Hy as _ <-.
  simpl in Hc. injection Hc as <-. discriminate.
Qed.

(** ** Failures of the vendor call *)

Lemma generateContentStream_mid_failure (self : OpenAIContentGenerator)
      (request : GenerateContentParameters) (stream : ChunkStream) :
  chat_create_stream (client self) (model self) (convertToOpenAIMessages request)
    = Returned stream ->
  raised (generateContentStream self request) =
    option_map wrapStreamError (stream_failure stream).
Proof.
  intros H. unfold generateContentStream. rewrite H. simpl.
  now rewrite consumeChunks_raised.
Qed.

(** C5, as the code has it: [embedContent] converts what its vendor call
    throws with [handleError] (an API error becomes an error whose message
    carries the vendor message and the status code, another error is
    passed through unchanged, any other value is wrapped generically),
    and [countTokens], which calls no vendor, returns; [generateContent]
    and [generateContentStream] re-raise whatever the vendor call throws,
    also when the stream fails after some chunks, as one new error whose
    message is the prefix naming the call followed by the thrown value's
    message, or by its string form when it is no error. *)
Theorem error_handling_by_operation (self : OpenAIContentGenerator) (e : Thrown) :
  (forall request,
      embeddings_create (client self) (embeddingModel self)
                        (extractTextFromEmbedRequest request) = Threw e ->
      embedContent self request = Threw (handleError e)) /\
  (forall m n, handleError (APIError m (Some n)) =
               PlainError ("OpenAI API Error: " ++ m ++ " (" ++ string_of_nat n ++ ")")) /\
  (forall m, handleError (PlainError m) = PlainError m) /\
  (forall v, handleError (NonError v) = PlainError ("Unknown OpenAI error: " ++ v)) /\
  (forall request, exists r, countTokens self request = Returned r) /\
  (forall request,
      chat_create (client self) (model self) (convertToOpenAIMessages request) = Threw e ->
      generateContent self request =
        Threw (PlainError (generateContentPrefix ++ message_or_string e))) /\
  (forall request,
      chat_create_stream (client self) (model self) (convertToOpenAIMessages request)
        = Threw e ->
      generateContentStream self request =
        {| yielded := [];
           raised := Some (PlainError (generateContentStreamPrefix ++ message_or_string e)) |}) /\
  (forall request stream,
      chat_create_stream (client self) (model self) (convertToOpenAIMessages request)
        = Returned stream ->
      stream_failure stream = Some e ->
      raised (generateContentStream self request) =
        Some (PlainError (generateContentStreamPrefix ++ message_or_string e))).
Proof.
  repeat split; try reflexivity.
  - intros request H. unfold embedContent. now rewrite H.
  - intros request. eexists. reflexivity.
  - intros request H. unfold generateContent. now rewrite H.
  - intros request H. unfold generateContentStream. now rewrite H.
  - intros request stream H Hf.
    rewrite (generateContentStream_mid_failure self request stream H), Hf.
    reflexivity.
Qed.

Lemma error_handling_by_operation_witness :
  embedContent (generatorOf (failingClient (APIError "rate limited" (Some 429))))
               {| embed_contents := Many [textContent None "x"] |} =
    Threw (PlainError "OpenAI API Error: rate limited (429)") /\
  generateContent (generatorOf (failingClient (APIError "rate limited" (Some 429))))
                  hiRequest =
    Threw (PlainError (generateContentPrefix ++ "rate limited")).
Proof.
  split.
  - apply (error_handling_by_operation
             (generatorOf (failingClient (APIError "rate limited" (Some 429))))
             (APIError "rate limited" (Some 429))).
    reflexivity.
  - apply (error_handling_by_operation
             (generatorOf (failingClient (APIError "rate limited" (Some 429))))
             (APIError "rate limited" (Some 429))).
    reflexivity.
Defined.

(** C5 as stated fails for the two generation operations: an error thrown
    by the vendor call is not passed through unchanged, and an API error
    is not converted as [handleError] does: the status code is lost. *)
Lemma generateContent_does_not_use_handleError :
  generateContent (generatorOf (failingClient (PlainError "boom"))) hiRequest
    <> Threw (PlainError "boom") /\
  generateContent (generatorOf (failingClient (APIError "rate limited" (Some 429))))
                  hiRequest
    <> Threw (handleError (APIError "rate limited" (Some 429))) /\
  raised (generateContentStream (generatorOf (failingClient (PlainError "boom")))
                                hiRequest)
    <> Some (PlainError "boom").
Proof.
  repeat split; intros H; vm_compute in H; discriminate.
Qed.

(** ** Strings and the quarter ceiling *)

Lemma append_nil_r (s : string) : s ++ "" = s.
Proof. induction s as [|c s IH]; simpl; [reflexivity | now rewrite IH]. Qed.

Lemma append_assoc (s t u : string) : (s ++ t) ++ u = s ++ (t ++ u).
Proof. induction s as [|c s IH]; simpl; [reflexivity | now rewrite IH]. Qed.

Lemma concat_empty_cons (t : string) (l : list string) :
  String.concat "" (t :: l) = t ++ String.concat "" l.
Proof.
  destruct l as [|u l]; simpl; [now rewrite append_nil_r | reflexivity].
Qed.

Lemma ceil_quarter_bounds (n : nat) :
  n <= 4 * ceil_quarter n /\ 4 * ceil_quarter n < n + 4.
Proof.
  unfold ceil_quarter.
  pose proof (Nat.div_mod_eq n 4) as Hdiv.
  pose proof (Nat.mod_upper_bound n 4 ltac:(discriminate)) as Hmod.
  destruct (Nat.eqb_spec (n mod 4) 0); lia.
Qed.

Lemma ceil_quarter_least (n k : nat) : n <= 4 * k -> ceil_quarter n <= k.
Proof.
  intros H. pose proof (ceil_quarter_bounds n). lia.
Qed.

Lemma ceil_quarter_monotone (n m : nat) :
  n <= m -> ceil_quarter n <= ceil_quarter m.
Proof.
  intros H. apply ceil_quarter_least.
  pose proof (ceil_quarter_bounds m). lia.
Qed.

(** ** Token counting *)

Lemma spaceTerminated_cons (t : string) (l : list string) :
  spaceTerminated (t :: l) =
  if truthy t then (t ++ " ") ++ spaceTerminated l else spaceTerminated l.
Proof.
  unfold spaceTerminated. simpl filter.
  destruct (truthy t); [|reflexivity].
  simpl map. apply concat_empty_cons.
Qed.

Lemma spaceTerminated_app (l1 l2 : list string) :
  spaceTerminated (l1 ++ l2) = spaceTerminated l1 ++ spaceTerminated l2.
Proof.
  induction l1 as [|t l1 IH]; [reflexivity|].
  rewrite <- app_comm_cons, !spaceTerminated_cons, IH.
  destruct (truthy t); [symmetry; apply append_assoc | reflexivity].
Qed.

Lemma fold_appendPartText (ps : list PartUnion) (acc : string) :
  fold_left appendPartText ps acc = acc ++ spaceTerminated (partTexts ps).
Proof.
  revert acc. induction ps as [|part ps IH]; intros acc.
  - simpl. now rewrite append_nil_r.
  - simpl fold_left. rewrite IH.
    change (partTexts (part :: ps))
      with ((match part with
             | PartObj p => match text p with Some t => [t] | None => [] end
             | PartStr _ => []
             end) ++ partTexts ps)%list.
    destruct part as [s|[[t|]]]; simpl appendPartText; simpl app; try reflexivity.
    rewrite spaceTerminated_cons.
    destruct (truthy t); [apply append_assoc | reflexivity].
Qed.

Lemma fold_appendContentText (items : list ContentItem) (acc : string) :
  fold_left appendContentText items acc =
  acc ++ spaceTerminated (scannedTexts (Many items)).
Proof.
  revert acc. induction items as [|item items IH]; intros acc.
  - simpl. now rewrite append_nil_r.
  - simpl fold_left. rewrite IH.
    unfold scannedTexts in *. simpl contentsArray in *. simpl flat_map.
    rewrite spaceTerminated_app, <- append_assoc. f_equal.
    destruct item as [s|p|[r [ps|]]]; simpl; try (now rewrite append_nil_r).
    apply fold_appendPartText.
Qed.

Lemma scannedTexts_array (c : ContentListUnion) :
  scannedTexts c = scannedTexts (Many (contentsArray c)).
Proof. reflexivity. Qed.

Lemma extractTextFromRequest_spec (request : CountTokensParameters) :
  extractTextFromRequest request =
  spaceTerminated (scannedTexts (count_contents request)).
Proof.
  unfold extractTextFromRequest.
  now rewrite fold_appendContentText, scannedTexts_array.
Qed.

Lemma spaceTerminated_all_empty (texts : list string) :
  Forall (fun t => t = "") texts -> spaceTerminated texts = "".
Proof.
  induction 1 as [|t l Ht _ IH]; [reflexivity|].
  rewrite spaceTerminated_cons. subst t. exact IH.
Qed.

(** C6, as the code has it: the text counted is every non-empty part text
    of the contents, in order, each followed by one space (the last one
    too); [countTokens] returns, and its [totalTokens] is the ceiling of a
    quarter of that text's length: the least [n] with [length <= 4 * n];
    it is 0 when every part text is empty, and it does not decrease when
    the length of the text grows. *)
Theorem countTokens_estimate (self : OpenAIContentGenerator)
        (request : CountTokensParameters) :
  extractTextFromRequest request =
    spaceTerminated (scannedTexts (count_contents request)) /\
  exists n,
    countTokens self request = Returned {| totalTokens := n |} /\
    String.length (extractTextFromRequest request) <= 4 * n /\
    (forall k, String.length (extractTextFromRequest request) <= 4 * k -> n <= k) /\
    (Forall (fun t => t = "") (scannedTexts (count_contents request)) -> n = 0) /\
    (forall self' request' n',
        countTokens self' request' = Returned {| totalTokens := n' |} ->
        String.length (extractTextFromRequest request)
          <= String.length (extractTextFromRequest request') ->
        n <= n').
Proof.
  split; [apply extractTextFromRequest_spec|].
  exists (ceil_quarter (String.length (extractTextFromRequest request))).
  split; [reflexivity|]. split; [apply ceil_quarter_bounds|].
  split; [intros k; apply ceil_quarter_least|]. split.
  - intros Hall. rewrite extractTextFromRequest_spec.
    now rewrite (spaceTerminated_all_empty _ Hall).
  - intros self' request' n' Hcount Hlen.
    unfold countTokens in Hcount. simpl in Hcount.
    injection Hcount as <-. now apply ceil_quarter_monotone.
Qed.

Lemma countTokens_estimate_witness :
  countTokens (generatorOf (failingClient (NonError "unused")))
              {| count_contents := Many [textContent (Some "user") "hello";
                                         textContent (Some "model") "abc"] |}
  = Returned {| totalTokens := 3 |} /\
  countTokens (generatorOf (failingClient (NonError "unused")))
              {| count_contents := Many [textContent (Some "user") ""] |}
  = Returned {| totalTokens := 0 |}.
Proof.
  split.
  - destruct (countTokens_estimate
                (generatorOf (failingClient (NonError "unused")))
                {| count_contents := Many [textContent (Some "user") "hello";
                                           textContent (Some "model") "abc"] |})
      as (_ & n & Hn & Hup & Hleast & _).
    rewrite Hn. do 2 f_equal.
    specialize (Hleast 3). simpl in Hleast, Hup. lia.
  - destruct (countTokens_estimate
                (generatorOf (failingClient (NonError "unused")))
                {| count_contents := Many [textContent (Some "user") ""] |})
      as (_ & n & Hn & _ & _ & Hzero & _).
    rewrite Hn. do 2 f_equal. apply Hzero.
    repeat constructor.
Defined.

(** C6 as stated fails on the text "abcd": the space-joined text has four
    characters, a quarter of which is 1, and [countTokens] returns 2, the
    space after the last text being counted. *)
Lemma countTokens_counts_trailing_space :
  countTokens (generatorOf (failingClient (NonError "unused")))
              {| count_contents := Many [textContent (Some "user") "abcd"] |}
  <> Returned
       {| totalTokens :=
            ceil_quarter
              (String.length
                 (spaceJoined
                    (scannedTexts (Many [textContent (Some "user") "abcd"])))) |}.
Proof.
  intros H. vm_compute in H. discriminate.
Qed.

(** ** Embedding *)

Lemma hd_error_app {A : Type} (l1 l2 : list A) :
  hd_error (l1 ++ l2) =
  match hd_error l1 with
  | Some x => Some x
  | None => hd_error l2
  end.
Proof. destruct l1; reflexivity. Qed.

Lemma firstTextOfParts_spec (ps : list PartUnion) :
  firstTextOfParts ps = hd_error (filter truthy (partTexts ps)).
Proof.
  induction ps as [|part ps IH]; [reflexivity|].
  destruct part as [s|[[t|]]]; simpl; try exact IH.
  destruct (truthy t); [reflexivity | exact IH].
Qed.

Lemma firstTextOfContents_spec (items : list ContentItem) :
  firstTextOfContents items = hd_error (filter truthy (scannedTexts (Many items))).
Proof.
  induction items as [|item items IH]; [reflexivity|].
  unfold scannedTexts in *. simpl contentsArray in *. simpl flat_map.
  rewrite filter_app, hd_error_app, <- IH.
  destruct item as [s|p|[r [ps|]]]; simpl; try reflexivity.
  now rewrite firstTextOfParts_spec.
Qed.

Lemma extractTextFromEmbedRequest_spec (request : EmbedContentParameters) :
  extractTextFromEmbedRequest request =
  firstNonEmpty (scannedTexts (embed_contents request)).
Proof.
  unfold extractTextFromEmbedRequest, firstNonEmpty.
  rewrite firstTextOfContents_spec, <- scannedTexts_array.
  destruct (filter truthy (scannedTexts (embed_contents request))); reflexivity.
Qed.

(** C7: the text sent to the vendor is the first non-empty text found
    scanning the contents and their parts in order ("x" when the first
    content has the empty text and the second has "x"); whenever the
    vendor answers, [embedContent] returns exactly one embedding, whose
    values are those of the first data entry of the answer, or no value
    at all when the answer has no data entry: that case is no failure. *)
Theorem embedContent_first_text (self : OpenAIContentGenerator)
        (request : EmbedContentParameters) :
  extractTextFromEmbedRequest request =
    firstNonEmpty (scannedTexts (embed_contents request)) /\
  (forall r1 r2,
      extractTextFromEmbedRequest
        {| embed_contents := Many [textContent r1 ""; textContent r2 "x"] |} = "x") /\
  (forall response,
      embeddings_create (client self) (embeddingModel self)
                        (firstNonEmpty (scannedTexts (embed_contents request)))
        = Returned response ->
      embedContent self request =
        Returned {| embeddings :=
                      [ {| values := match data response with
                                     | first :: _ => embedding first
                                     | [] => []
                                     end |} ] |}).
Proof.
  split; [apply extractTextFromEmbedRequest_spec|].
  split; [reflexivity|].
  intros response H. unfold embedContent.
  rewrite extractTextFromEmbedRequest_spec, H. reflexivity.
Qed.

Lemma embedContent_first_text_witness :
  embedContent (generatorOf xEmbeddingClient)
    {| embed_contents := Many [textContent (Some "user") "";
                               textContent (Some "user") "x"] |}
  = Returned {| embeddings := [ {| values := [0.5%float; 0.25%float] |} ] |} /\
  embedContent (generatorOf xEmbeddingClient)
    {| embed_contents := Many [textContent (Some "user") "y"] |}
  = Returned {| embeddings := [ {| values := [] |} ] |}.
Proof.
  split.
  - apply (proj2 (proj2 (embedContent_first_text
                           (generatorOf xEmbeddingClient)
                           {| embed_contents := Many [textContent (Some "user") "";
                                                      textContent (Some "user") "x"] |}))
                 {| data := [ {| embedding := [0.5%float; 0.25%float] |} ] |}).
    reflexivity.
  - apply (proj2 (proj2 (embedContent_first_text
                           (generatorOf xEmbeddingClient)
                           {| embed_contents := Many [textContent (Some "user") "y"] |}))
                 {| data := [] |}).
    reflexivity.
Defined.

(** ** Contents that carry no parts array *)

Lemma scannedTexts_without_parts (c : ContentListUnion) :
  Forall (fun item => carriesParts item = false) (contentsArray c) ->
  scannedTexts c = [].
Proof.
  unfold scannedTexts. induction 1 as [|item items Hitem _ IH]; [reflexivity|].
  simpl. rewrite IH.
  destruct item as [s|p|[r [ps|]]]; simpl in *; try reflexivity. discriminate.
Qed.

Lemma scannedTexts_filter (items : list ContentItem) :
  scannedTexts (Many (filter carriesParts items)) = scannedTexts (Many items).
Proof.
  unfold scannedTexts. simpl contentsArray.
  induction items as [|item items IH]; [reflexivity|].
  simpl filter.
  destruct item as [s|p|[r [ps|]]]; simpl; try exact IH.
  now rewrite <- IH.
Qed.

(** C10: the text extraction of [countTokens] and of [embedContent] scans
    only the contents that are objects carrying a parts array. Dropping
    every other content changes neither text, and when no content carries
    one (each is a bare string, a bare part, or an object without parts)
    [countTokens] returns [totalTokens = 0] and [embedContent] calls the
    vendor on the empty string: its outcome is the vendor's answer for
    that input. *)
Theorem contents_without_parts_ignored (self : OpenAIContentGenerator)
        (c : ContentListUnion) :
  extractTextFromRequest {| count_contents := c |} =
    extractTextFromRequest
      {| count_contents := Many (filter carriesParts (contentsArray c)) |} /\
  extractTextFromEmbedRequest {| embed_contents := c |} =
    extractTextFromEmbedRequest
      {| embed_contents := Many (filter carriesParts (contentsArray c)) |} /\
  (Forall (fun item => carriesParts item = false) (contentsArray c) ->
   countTokens self {| count_contents := c |} = Returned {| totalTokens := 0 |} /\
   extractTextFromEmbedRequest {| embed_contents := c |} = "" /\
   (forall response,
       embeddings_create (client self) (embeddingModel self) "" = Returned response ->
       embedContent self {| embed_contents := c |} =
         Returned {| embeddings := [ {| values := firstEmbedding response |} ] |}) /\
   (forall e,
       embeddings_create (client self) (embeddingModel self) "" = Threw e ->
       embedContent self {| embed_contents := c |} = Threw (handleError e))).
Proof.
  split; [|split].
  - rewrite !extractTextFromRequest_spec. simpl count_contents.
    now rewrite scannedTexts_filter, <- scannedTexts_array.
  - rewrite !extractTextFromEmbedRequest_spec. simpl embed_contents.
    now rewrite scannedTexts_filter, <- scannedTexts_array.
  - intros Hnone.
    assert (Hembed : extractTextFromEmbedRequest {| embed_contents := c |} = "").
    { rewrite extractTextFromEmbedRequest_spec. simpl embed_contents.
      now rewrite (scannedTexts_without_parts c Hnone). }
    split; [|split; [exact Hembed|split]].
    + unfold countTokens. rewrite extractTextFromRequest_spec. simpl count_contents.
      now rewrite (scannedTexts_without_parts c Hnone).
    + intros response H. unfold embedContent. now rewrite Hembed, H.
    + intros e H. unfold embedContent. now rewrite Hembed, H.
Qed.

Lemma contents_without_parts_ignored_witness :
  countTokens (generatorOf (failingClient (NonError "unused")))
              {| count_contents :=
                   Many [ItemStr "hello"; ItemPart {| text := Some "world" |}] |}
  = Returned {| totalTokens := 0 |} /\
  extractTextFromEmbedRequest
    {| embed_contents :=
         Many [ItemStr "hello"; ItemPart {| text := Some "world" |}] |} = "".
Proof.
  destruct (contents_without_parts_ignored
              (generatorOf (failingClient (NonError "unused")))
              (Many [ItemStr "hello"; ItemPart {| text := Some "world" |}]))
    as (_ & _ & H).
  destruct H as (Hcount & Hembed & _).
  - repeat constructor.
  - split; [exact Hcount | exact Hembed].
Defined.

(** ** The registry and the validator *)

Module AdapterFactoryFacts.

Import AdapterFactory.

Lemma inferFromEntries_skip (before after : list (LLMProvider * list string))
      (p : LLMProvider) (models : list string) (m : string) :
  (forall q ms, In (q, ms) before -> ~ In m ms) ->
  In m models ->
  inferFromEntries (before ++ (p, models) :: after) m = Some p.
Proof.
  intros Hbefore Hin. induction before as [|[q ms] before IH]; simpl.
  - apply includes_In in Hin. now rewrite Hin.
  - assert (Hq : includes ms m = false).
    { apply includes_not_In. apply (Hbefore q). now left. }
    rewrite Hq. apply IH. intros q' ms' H. apply (Hbefore q'). now right.
Qed.

Lemma inferFromEntries_found (entries : list (LLMProvider * list string))
      (m : string) (p : LLMProvider) :
  inferFromEntries entries m = Some p ->
  exists before models after,
    entries = (before ++ (p, models) :: after)%list /\
    In m models /\
    (forall q ms, In (q, ms) before -> ~ In m ms).
Proof.
  induction entries as [|[q ms] entries IH]; simpl; [discriminate|].
  destruct (includes ms m) eqn:Hinc.
  - intros [= <-]. exists [], ms, entries. repeat split.
    + now apply includes_In.
    + intros q' ms' [].
  - intros H. destruct (IH H) as (before & models & after & -> & Hin & Hbefore).
    exists ((q, ms) :: before), models, after. repeat split; auto.
    intros q' ms' [[= <- <-]|Hin']; [now apply includes_not_In | eauto].
Qed.

Lemma inferFromEntries_none (entries : list (LLMProvider * list string))
      (m : string) :
  inferFromEntries entries m = None <->
  (forall q ms, In (q, ms) entries -> ~ In m ms).
Proof.
  induction entries as [|[q ms] entries IH]; simpl.
  - split; [intros _ q ms [] | reflexivity].
  - destruct (includes ms m) eqn:Hinc.
    + split; [discriminate|]. intros H. exfalso.
      apply (H q ms); [now left | now apply includes_In].
    + rewrite IH. split.
      * intros H q' ms' [[= <- <-]|Hin]; [now apply includes_not_In | eauto].
      * intros H q' ms' Hin. apply (H q'). now right.
Qed.

(** C8: [inferProviderFromModel m] is the first provider, in the order of
    declaration, whose model list contains exactly [m]: no earlier
    provider lists [m] (so "gemini-2.5-pro", listed under GEMINI and under
    VERTEX_AI, gives GEMINI); it is the "none found" result exactly when no
    provider lists [m]; and it is the provider [p] whenever [m] is listed
    under [p] and under no other provider. *)
Theorem inferProviderFromModel_first_match (m : string) :
  (forall p,
      inferProviderFromModel m = Some p <->
      exists before models after,
        SUPPORTED_MODELS = (before ++ (p, models) :: after)%list /\
        In m models /\
        (forall q ms, In (q, ms) before -> ~ In m ms)) /\
  (inferProviderFromModel m = None <->
   forall q ms, In (q, ms) SUPPORTED_MODELS -> ~ In m ms) /\
  (forall p,
      (exists ms, In (p, ms) SUPPORTED_MODELS /\ In m ms) ->
      (forall q ms, In (q, ms) SUPPORTED_MODELS -> In m ms -> q = p) ->
      inferProviderFromModel m = Some p) /\
  inferProviderFromModel "gemini-2.5-pro" = Some GEMINI /\
  In "gemini-2.5-pro"
     ["gemini-2.5-pro"; "gemini-2.5-flash"; "gemini-1.5-pro"; "gemini-1.5-flash"] /\
  In (VERTEX_AI,
      ["gemini-2.5-pro"; "gemini-2.5-flash"; "gemini-1.5-pro"; "gemini-1.5-flash"])
     SUPPORTED_MODELS.
Proof.
  unfold inferProviderFromModel. split; [|split; [|split]].
  - intros p. split.
    + apply inferFromEntries_found.
    + intros (before & models & after & -> & Hin & Hbefore).
      now apply inferFromEntries_skip.
  - apply inferFromEntries_none.
  - intros p (ms & Hentry & Hin) Hunique.
    destruct (inferFromEntries SUPPORTED_MODELS m) as [q|] eqn:Hq.
    + destruct (inferFromEntries_found _ _ _ Hq)
        as (before & models & after & Heq & Hin' & _).
      f_equal. apply (Hunique q models); [|exact Hin'].
      rewrite Heq. apply in_or_app. right. now left.
    + exfalso. apply (proj1 (inferFromEntries_none _ _) Hq p ms Hentry Hin).
  - repeat split; simpl; auto.
Qed.

Lemma inferProviderFromModel_first_match_witness :
  inferProviderFromModel "gpt-4o" = Some OPENAI /\
  inferProviderFromModel "unknown-model" = None.
Proof.
  split.
  - apply (proj1 (proj2 (proj2 (inferProviderFromModel_first_match "gpt-4o")))).
    + exists ["gpt-4"; "gpt-4-turbo"; "gpt-4o"; "gpt-4o-mini"; "gpt-3.5-turbo"].
      split; simpl; auto.
    + intros q ms Hentry Hin. simpl in Hentry.
      destruct Hentry as [[= <- <-]|[[= <- <-]|[[= <- <-]|[]]]]; simpl in Hin;
        repeat (destruct Hin as [Hin|Hin]; try discriminate); tauto.
  - apply (proj1 (proj2 (inferProviderFromModel_first_match "unknown-model"))).
    intros q ms Hentry Hin. simpl in Hentry.
    destruct Hentry as [[= <- <-]|[[= <- <-]|[[= <- <-]|[]]]]; simpl in Hin;
      repeat (destruct Hin as [Hin|Hin]; try discriminate); tauto.
Defined.

Lemma In_unless (b : bool) (x e : string) :
  In e (if b then [] else [x]) <-> b = false /\ e = x.
Proof.
  destruct b; simpl.
  - split; [tauto | intros [H _]; discriminate].
  - split; [intros [H|[]]; auto | intros [_ H]; auto].
Qed.

(** The errors of [validateConfig], one optional entry per check, in the
    order of the checks. *)
Lemma validateConfig_errors (config : AdapterConfig) :
  errors (validateConfig config) =
  ((if truthy_opt (provider config) then [] else ["Provider is required"]) ++
   (if truthy_opt (apiKey config) then [] else ["API key is required"]) ++
   (if truthy_opt (model config) then [] else ["Model is required"]) ++
   match provider config with
   | Some p =>
       if truthy p && negb (includes getSupportedProviders p)
       then [("Unsupported provider: " ++ p)%string] else []
   | None => []
   end)%list.
Proof.
  unfold validateConfig, push. cbn [errors].
  destruct (truthy_opt (provider config)), (truthy_opt (apiKey config)),
    (truthy_opt (model config)); cbn [negb app];
    (destruct (provider config) as [p|]; [|reflexivity]);
    destruct (truthy p && negb (includes getSupportedProviders p)); reflexivity.
Qed.

Lemma validateConfig_valid (config : AdapterConfig) :
  valid (validateConfig config) =
  Nat.eqb (List.length (errors (validateConfig config))) 0.
Proof. reflexivity. Qed.

Lemma In_unsupported (o : option string) (e : string) :
  In e match o with
       | Some p =>
           if truthy p && negb (includes getSupportedProviders p)
           then ["Unsupported provider: " ++ p] else []
       | None => []
       end <->
  exists p, o = Some p /\ p <> "" /\ ~ In p getSupportedProviders /\
            e = "Unsupported provider: " ++ p.
Proof.
  destruct o as [p|].
  - destruct (truthy p) eqn:Ht;
      destruct (includes getSupportedProviders p) eqn:Hi; cbn [andb negb In].
    + split; [tauto|]. intros (p' & [= <-] & _ & Hnot & _).
      apply includes_In in Hi. contradiction.
    + split.
      * intros [<-|[]]. exists p. repeat split.
        -- now apply truthy_true_iff.
        -- now apply includes_not_In.
      * intros (p' & [= <-] & _ & _ & ->). now left.
    + split; [tauto|]. intros (p' & [= <-] & Hne & _).
      apply truthy_false_iff in Ht. contradiction.
    + split; [tauto|]. intros (p' & [= <-] & Hne & _).
      apply truthy_false_iff in Ht. contradiction.
  - cbn [In]. split; [tauto|]. intros (p & H & _). discriminate.
Qed.

Lemma unsupported_message_inj (p q : string) :
  "Unsupported provider: " ++ p = "Unsupported provider: " ++ q -> p = q.
Proof. simpl. intros H. now injection H. Qed.

(** C9, as the code has it: [validateConfig] returns for every
    configuration, and its errors
    accumulate, each check being made whatever the others found:
    "Provider is required" is among them exactly when the provider is
    missing or empty, "API key is required" exactly when the API key is,
    "Model is required" exactly when the model is, and "Unsupported
    provider: p" exactly when the provider is a non-empty [p] outside the
    registry, whose providers are those of [SUPPORTED_MODELS]; there is no
    other error; [valid] is true exactly when the error sequence is empty. With the three fields missing or empty the
    three errors come in the order of the checks, and the OPENAI
    configuration with key "sk-x" and model "gpt-4" is valid. *)
Theorem validateConfig_accumulates (config : AdapterConfig) :
  (In "Provider is required" (errors (validateConfig config)) <->
     missing (provider config)) /\
  (In "API key is required" (errors (validateConfig config)) <->
     missing (apiKey config)) /\
  (In "Model is required" (errors (validateConfig config)) <->
     missing (model config)) /\
  (forall p,
      In ("Unsupported provider: " ++ p) (errors (validateConfig config)) <->
      provider config = Some p /\ p <> "" /\ ~ In p getSupportedProviders) /\
  (forall e,
      In e (errors (validateConfig config)) ->
      e = "Provider is required" \/ e = "API key is required" \/
      e = "Model is required" \/
      exists p, provider config = Some p /\ e = "Unsupported provider: " ++ p) /\
  (valid (validateConfig config) = true <-> errors (validateConfig config) = []) /\
  getSupportedProviders =
    map (fun entry => provider_value (fst entry)) SUPPORTED_MODELS /\
  validateConfig {| provider := None; apiKey := Some ""; model := Some "" |} =
    {| valid := false;
       errors := ["Provider is required"; "API key is required"; "Model is required"] |} /\
  validateConfig {| provider := Some (provider_value OPENAI);
                    apiKey := Some "sk-x"; model := Some "gpt-4" |} =
    {| valid := true; errors := [] |}.
Proof.
  rewrite validateConfig_errors.
  repeat rewrite <- truthy_opt_false_iff.
  split; [|split; [|split; [|split; [|split; [|split; [|split; [reflexivity|]]]]]]].
  - rewrite !in_app_iff, !In_unless, In_unsupported. split; [|tauto].
    intros [[H _]|[[_ H]|[[_ H]|(p & _ & _ & _ & H)]]];
      try discriminate; assumption.
  - rewrite !in_app_iff, !In_unless, In_unsupported. split; [|tauto].
    intros [[_ H]|[[H _]|[[_ H]|(p & _ & _ & _ & H)]]];
      try discriminate; assumption.
  - rewrite !in_app_iff, !In_unless, In_unsupported. split; [|tauto].
    intros [[_ H]|[[_ H]|[[H _]|(p & _ & _ & _ & H)]]];
      try discriminate; assumption.
  - intros p. rewrite !in_app_iff, !In_unless, In_unsupported. split.
    + intros [[_ H]|[[_ H]|[[_ H]|(q & Hq & Hne & Hnot & H)]]];
        try discriminate.
      apply unsupported_message_inj in H. subst q. auto.
    + intros (Hp & Hne & Hnot). do 3 right. exists p. auto.
  - intros e. rewrite !in_app_iff, !In_unless, In_unsupported.
    intros [[_ H]|[[_ H]|[[_ H]|(q & Hq & _ & _ & H)]]]; eauto 6.
  - rewrite validateConfig_valid, validateConfig_errors.
    match goal with |- Nat.eqb (List.length ?l) 0 = true <-> _ =>
      destruct l; simpl; split; congruence end.
  - split; reflexivity.
Qed.

Lemma validateConfig_accumulates_witness :
  In "Unsupported provider: anthropic"
     (errors (validateConfig {| provider := Some "anthropic"; apiKey := None;
                                model := Some "claude" |})) /\
  In "API key is required"
     (errors (validateConfig {| provider := Some "anthropic"; apiKey := None;
                                model := Some "claude" |})).
Proof.
  split.
  - apply (proj1 (proj2 (proj2 (proj2
             (validateConfig_accumulates
                {| provider := Some "anthropic"; apiKey := None;
                   model := Some "claude" |})))) "anthropic").
    repeat split; [discriminate|].
    simpl. intros [H|[H|[H|[]]]]; discriminate.
  - apply (proj1 (proj2 (validateConfig_accumulates
                           {| provider := Some "anthropic"; apiKey := None;
                              model := Some "claude" |}))).
    now left.
Defined.

(** C9 as stated fails for a provider that is the empty string: it is
    present and outside the registry, and the only error is "Provider is
    required"; no "Unsupported provider" error is given. *)
Lemma validateConfig_empty_provider :
  ~ In "" getSupportedProviders /\
  validateConfig {| provider := Some ""; apiKey := Some "sk-x";
                    model := Some "gpt-4" |} =
    {| valid := false; errors := ["Provider is required"] |} /\
  ~ In ("Unsupported provider: " ++ "")
       (errors (validateConfig {| provider := Some ""; apiKey := Some "sk-x";
                                  model := Some "gpt-4" |})).
Proof.
  split; [|split].
  - simpl. intros [H|[H|[H|[]]]]; discriminate.
  - reflexivity.
  - simpl. intros [H|[]]. discriminate.
Qed.

End AdapterFactoryFacts.

(** * Further properties of the adapter *)

(** ** Streaming, chunk by chunk *)

Lemma consumeChunks_yielded (chunks : list ChatCompletionChunk)
      (failure : option Thrown) :
  yielded (consumeChunks chunks failure) = flat_map chunkResponses chunks.
Proof.
  induction chunks as [|chunk chunks IH]; [reflexivity|].
  simpl. unfold chunkResponses, convertStreamChunkToGeminiResponse.
  destruct (chunk_choices chunk) as [[|choice others]|]; try exact IH.
  destruct (deltaContent choice) as [t|] eqn:Hdelta; simpl; [|exact IH].
  unfold truthy. destruct (String.eqb_spec t ""); simpl; [exact IH|].
  now rewrite IH.
Qed.

Lemma flat_map_length_le {A B : Type} (f : A -> list B) (l : list A) :
  (forall a, List.length (f a) <= 1) ->
  List.length (flat_map f l) <= List.length l.
Proof.
  intros Hf. induction l as [|a l IH]; simpl; [lia|].
  rewrite length_app. specialize (Hf a). lia.
Qed.

Lemma chunkResponses_at_most_one (chunk : ChatCompletionChunk) :
  List.length (chunkResponses chunk) <= 1.
Proof.
  unfold chunkResponses.
  destruct (chunk_choices chunk) as [[|choice others]|]; simpl; try lia.
  destruct (deltaContent choice) as [t|]; simpl; try lia.
  destruct (t =? ""); simpl; lia.
Qed.

(** For a stream the vendor opens, [generateContentStream] yields, in the
    order of the chunks, one response for each chunk whose first choice
    carries a non-empty incremental text and nothing for any other chunk
    (no choices, no delta, null or empty text, text only in a later
    choice); so it yields at most as many responses as there are chunks,
    and a failure of the stream after its chunks loses none of them: it
    is raised, wrapped, after the last response. *)
Theorem stream_yields_text_chunks (self : OpenAIContentGenerator)
        (request : GenerateContentParameters) (stream : ChunkStream) :
  chat_create_stream (client self) (model self) (convertToOpenAIMessages request)
    = Returned stream ->
  yielded (generateContentStream self request) =
    flat_map chunkResponses (stream_chunks stream) /\
  List.length (yielded (generateContentStream self request))
    <= List.length (stream_chunks stream) /\
  raised (generateContentStream self request) =
    option_map wrapStreamError (stream_failure stream).
Proof.
  intros H.
  assert (Hy : yielded (generateContentStream self request) =
               flat_map chunkResponses (stream_chunks stream)).
  { unfold generateContentStream. rewrite H. simpl. apply consumeChunks_yielded. }
  split; [exact Hy|]. split.
  - rewrite Hy. apply flat_map_length_le, chunkResponses_at_most_one.
  - unfold generateContentStream. rewrite H. simpl.
    now rewrite consumeChunks_raised.
Qed.

Lemma stream_yields_text_chunks_witness :
  yielded
    (generateContentStream
       (generatorOf
          (cannedClient (Threw (NonError "unused"))
             (Returned {| stream_chunks :=
                            [ {| chunk_choices := Some [] |};
                              textChunk "a" ReasonNull;
                              {| chunk_choices := None |};
                              textChunk "" (ReasonStr "stop");
                              textChunk "b" (ReasonStr "length") ];
                          stream_failure := Some (PlainError "reset") |})
             (fun _ => Threw (NonError "unused"))))
       hiRequest)
  = [streamedResponse "a" None; streamedResponse "b" (Some "MAX_TOKENS")].
Proof.
  apply (stream_yields_text_chunks
           (generatorOf
              (cannedClient (Threw (NonError "unused"))
                 (Returned {| stream_chunks :=
                                [ {| chunk_choices := Some [] |};
                                  textChunk "a" ReasonNull;
                                  {| chunk_choices := None |};
                                  textChunk "" (ReasonStr "stop");
                                  textChunk "b" (ReasonStr "length") ];
                              stream_failure := Some (PlainError "reset") |})
                 (fun _ => Threw (NonError "unused"))))
           hiRequest
           {| stream_chunks :=
                [ {| chunk_choices := Some [] |};
                  textChunk "a" ReasonNull;
                  {| chunk_choices := None |};
                  textChunk "" (ReasonStr "stop");
                  textChunk "b" (ReasonStr "length") ];
              stream_failure := Some (PlainError "reset") |}).
  reflexivity.
Defined.

Lemma chunkResponses_shape (chunk : ChatCompletionChunk) :
  Forall (fun r =>
            usageMetadata r = None /\
            exists t reason,
              t <> "" /\
              candidates r =
                [ {| content := {| role := Some "model";
                                   parts := Some [PartObj {| text := Some t |}] |};
                     finishReason := reason;
                     index := 0 |} ])
         (chunkResponses chunk).
Proof.
  unfold chunkResponses.
  destruct (chunk_choices chunk) as [[|choice others]|]; try constructor.
  destruct (deltaContent choice) as [t|]; try constructor.
  destruct (String.eqb_spec t ""); constructor; [|constructor].
  split; [reflexivity|]. exists t. eexists. split; [assumption | reflexivity].
Qed.

(** Whatever the vendor does, every response [generateContentStream]
    yields has exactly one candidate, at index 0, of role "model", whose
    content is one text part with a non-empty text, and it has no
    usageMetadata: no empty response is ever yielded. *)
Theorem stream_responses_shape (self : OpenAIContentGenerator)
        (request : GenerateContentParameters) :
  Forall (fun r =>
            usageMetadata r = None /\
            exists t reason,
              t <> "" /\
              candidates r =
                [ {| content := {| role := Some "model";
                                   parts := Some [PartObj {| text := Some t |}] |};
                     finishReason := reason;
                     index := 0 |} ])
         (yielded (generateContentStream self request)).
Proof.
  unfold generateContentStream.
  destruct (chat_create_stream (client self) (model self)
                               (convertToOpenAIMessages request)) as [stream|e];
    simpl; [|constructor].
  rewrite consumeChunks_yielded.
  induction (stream_chunks stream) as [|chunk chunks IH]; simpl; [constructor|].
  apply Forall_app. split; [apply chunkResponses_shape | exact IH].
Qed.

(** ** Outcomes of the four operations *)

(** [generateContent] returns exactly when the vendor answers with a
    response that has at least one choice. The response it returns is
    then made of the first choice alone: one candidate with that choice's
    text (the empty text when it is null) and converted finish reason;
    and it carries usage metadata exactly when the native response
    carries usage, the three counters being copied. *)
Theorem generateContent_returns_iff (self : OpenAIContentGenerator)
        (request : GenerateContentParameters) (r : GenerateContentResponse) :
  generateContent self request = Returned r <->
  exists response choice rest,
    chat_create (client self) (model self) (convertToOpenAIMessages request)
      = Returned response /\
    choices response = choice :: rest /\
    candidates r =
      [ {| content :=
             {| role := Some "model";
                parts := Some [PartObj {| text := Some (or_empty (message_content choice)) |}] |};
           finishReason := convertFinishReason (finish_reason choice);
           index := 0 |} ] /\
    usageMetadata r =
      option_map (fun u => {| promptTokenCount := prompt_tokens u;
                              candidatesTokenCount := completion_tokens u;
                              totalTokenCount := total_tokens u |})
                 (usage response).
Proof.
  unfold generateContent, convertToGeminiResponse. split.
  - destruct (chat_create (client self) (model self)
                          (convertToOpenAIMessages request)) as [response|e];
      simpl; [|discriminate].
    destruct (choices response) as [|choice rest] eqn:Hc; simpl; [discriminate|].
    intros [= <-]. exists response, choice, rest.
    split; [reflexivity|]. split; [exact Hc|]. split; [reflexivity|].
    simpl. now destruct (usage response).
  - intros (response & choice & rest & Hcall & Hc & Hcand & Husage).
    rewrite Hcall. simpl. rewrite Hc. simpl.
    destruct r as [cands meta]. simpl in Hcand, Husage. subst cands meta.
    now destruct (usage response).
Qed.

(** Whatever an operation of the adapter throws is an [Error]: never the
    vendor's API error itself and never a value that is no error. For
    the two generation operations its message starts with the prefix
    naming the call; [countTokens] throws nothing. *)
Theorem adapter_throws_errors_only (self : OpenAIContentGenerator) :
  (forall request e,
      generateContent self request = Threw e ->
      exists m, e = PlainError (generateContentPrefix ++ m)) /\
  (forall request e,
      raised (generateContentStream self request) = Some e ->
      exists m, e = PlainError (generateContentStreamPrefix ++ m)) /\
  (forall request e, countTokens self request <> Threw e) /\
  (forall request e,
      embedContent self request = Threw e -> exists m, e = PlainError m) /\
  (forall e, handleError (handleError e) = handleError e).
Proof.
  split; [|split; [|split; [|split]]].
  - intros request e. unfold generateContent, try_catch.
    match goal with |- context [match ?body with _ => _ end] => destruct body end;
      [discriminate|].
    intros [= <-]. eexists. reflexivity.
  - intros request e. unfold generateContentStream.
    destruct (chat_create_stream (client self) (model self)
                                 (convertToOpenAIMessages request)) as [stream|e'];
      simpl.
    + rewrite consumeChunks_raised.
      destruct (stream_failure stream); simpl; [|discriminate].
      intros [= <-]. eexists. reflexivity.
    + intros [= <-]. eexists. reflexivity.
  - intros request e. discriminate.
  - intros request e. unfold embedContent, try_catch.
    match goal with |- context [match ?body with _ => _ end] => destruct body end;
      [discriminate|].
    intros [= <-]. destruct e0; eexists; reflexivity.
  - intros [m st|m|v]; reflexivity.
Qed.

(** ** Text of a content *)

Lemma concat_empty_app (l1 l2 : list string) :
  String.concat "" (l1 ++ l2) = String.concat "" l1 ++ String.concat "" l2.
Proof.
  induction l1 as [|t l1 IH]; [reflexivity|].
  rewrite <- app_comm_cons, !concat_empty_cons, IH.
  symmetry. apply append_assoc.
Qed.

Lemma concat_empty_filter (l : list string) :
  String.concat "" (filter truthy l) = String.concat "" l.
Proof.
  induction l as [|t l IH]; [reflexivity|].
  simpl filter. destruct (truthy t) eqn:Ht.
  - now rewrite !concat_empty_cons, IH.
  - apply truthy_false_iff in Ht. subst t.
    now rewrite concat_empty_cons, IH.
Qed.

Lemma joinPartTexts_concat (ps : list PartUnion) :
  joinPartTexts ps = String.concat "" (map extractTextFromPart ps).
Proof. apply concat_empty_filter. Qed.

(** The text extracted from a content is the concatenation, in order and
    without separator, of the texts of its parts, a part without text
    counting for the empty string: the text of two part sequences put
    end to end is the two texts put end to end, the text of a one-part
    content is the text of the part, and a bare array of parts has the
    text of the content object with the same parts, whatever its role. *)
Theorem extractTextFromContent_concatenates (ps1 ps2 : list PartUnion)
        (r : option string) (part : PartUnion) :
  extractTextFromContent (PartArray (ps1 ++ ps2)) =
    extractTextFromContent (PartArray ps1) ++ extractTextFromContent (PartArray ps2) /\
  extractTextFromContent (PartArray [part]) = extractTextFromPart part /\
  extractTextFromContent (PartArray []) = "" /\
  extractTextFromContent (OneItem (ItemContent {| role := r; parts := Some ps1 |})) =
    extractTextFromContent (PartArray ps1).
Proof.
  simpl. rewrite !joinPartTexts_concat, map_app, concat_empty_app.
  repeat split.
Qed.

(** ** Shape of the native message list *)

Lemma messages_decomposition (request : GenerateContentParameters) :
  convertToOpenAIMessages request =
  (specSystemMessages request ++
   flat_map specContentMessages (contentsArray (contents request)))%list.
Proof.
  unfold convertToOpenAIMessages.
  rewrite (systemMessages_spec request).
  destruct (contents request) as [item|l]; simpl.
  - rewrite app_nil_r.
    destruct (truthy_item item) eqn:Ht.
    + apply pushContentMessage_spec.
    + rewrite (falsy_item_no_message item Ht). now rewrite app_nil_r.
  - apply fold_pushContentMessage_spec.
Qed.

Lemma specContentMessages_shape (item : ContentItem) :
  List.length (specContentMessages item) <= 1 /\
  Forall (fun m => (msg_role m = "user" \/ msg_role m = "assistant") /\
                   msg_content m <> "")
         (specContentMessages item).
Proof.
  unfold specContentMessages.
  destruct (String.eqb_spec (extractTextFromContent (OneItem item)) "") as [|Hne];
    simpl; split; try lia; constructor; [|constructor].
  split; [|exact Hne].
  destruct item as [s|p|[[r|] ps]]; simpl; auto.
  destruct (r =? "model"); auto.
Qed.

Lemma specSystemMessages_shape (request : GenerateContentParameters) :
  List.length (specSystemMessages request) <= 1 /\
  Forall (fun m => msg_role m = "system" /\ msg_content m <> "")
         (specSystemMessages request).
Proof.
  unfold specSystemMessages.
  destruct (config request) as [cfg|]; [|simpl; split; [lia|constructor]].
  destruct (systemInstruction cfg) as [instruction|];
    [|simpl; split; [lia|constructor]].
  destruct (String.eqb_spec (extractTextFromContent instruction) "") as [|Hne];
    simpl; split; try lia; constructor; [|constructor].
  split; [reflexivity | exact Hne].
Qed.

(** The native message list of every request splits into at most one
    system message followed by the conversation: every conversation
    message has role 'user' or 'assistant', no message has an empty
    content, a system message is nowhere but first, and the conversation
    has at most one message per content of the request. *)
Theorem messages_invariants (request : GenerateContentParameters) :
  exists system conversation,
    convertToOpenAIMessages request = (system ++ conversation)%list /\
    List.length system <= 1 /\
    Forall (fun m => msg_role m = "system" /\ msg_content m <> "") system /\
    Forall (fun m => (msg_role m = "user" \/ msg_role m = "assistant") /\
                     msg_content m <> "") conversation /\
    List.length conversation <= List.length (contentsArray (contents request)).
Proof.
  exists (specSystemMessages request),
    (flat_map specContentMessages (contentsArray (contents request))).
  split; [apply messages_decomposition|].
  destruct (specSystemMessages_shape request) as [Hlen Hsys].
  split; [exact Hlen|]. split; [exact Hsys|]. split.
  - induction (contentsArray (contents request)) as [|item items IH]; simpl.
    + constructor.
    + apply Forall_app. split; [apply specContentMessages_shape | exact IH].
  - apply flat_map_length_le. intros item. apply specContentMessages_shape.
Qed.

(** ** More on the counted text *)

Lemma length_append (s t : string) :
  String.length (s ++ t) = String.length s + String.length t.
Proof. induction s as [|c s IH]; simpl; [reflexivity | now rewrite IH]. Qed.

Lemma length_zero_iff (s : string) : String.length s = 0 <-> s = "".
Proof. destruct s; simpl; split; congruence. Qed.

Lemma ceil_quarter_zero_iff (n : nat) : ceil_quarter n = 0 <-> n = 0.
Proof.
  pose proof (ceil_quarter_bounds n). split; [lia|]. intros ->. reflexivity.
Qed.

Lemma spaceTerminated_empty_iff (texts : list string) :
  spaceTerminated texts = "" <-> Forall (fun t => t = "") texts.
Proof.
  split; [|apply spaceTerminated_all_empty].
  induction texts as [|t texts IH]; [constructor|].
  rewrite spaceTerminated_cons. destruct (truthy t) eqn:Ht.
  - intros H. apply length_zero_iff in H.
    rewrite !length_append in H. simpl in H. lia.
  - intros H. constructor; [now apply truthy_false_iff | auto].
Qed.

(** [countTokens] returns [totalTokens = 0] exactly when the contents
    hold no non-empty part text; as soon as one part has a text, the
    estimate is at least 1. *)
Theorem countTokens_zero_iff (self : OpenAIContentGenerator)
        (request : CountTokensParameters) :
  countTokens self request = Returned {| totalTokens := 0 |} <->
  Forall (fun t => t = "") (scannedTexts (count_contents request)).
Proof.
  rewrite <- spaceTerminated_empty_iff, <- extractTextFromRequest_spec,
    <- length_zero_iff, <- ceil_quarter_zero_iff.
  unfold countTokens. simpl. split.
  - intros [= H]. exact H.
  - intros ->. reflexivity.
Qed.

Lemma extractTextFromRequest_app (l1 l2 : list ContentItem) :
  extractTextFromRequest {| count_contents := Many (l1 ++ l2) |} =
  extractTextFromRequest {| count_contents := Many l1 |} ++
  extractTextFromRequest {| count_contents := Many l2 |}.
Proof.
  rewrite !extractTextFromRequest_spec. simpl count_contents.
  unfold scannedTexts. simpl contentsArray.
  now rewrite flat_map_app, spaceTerminated_app.
Qed.

(** Counting two sequences of contents put end to end: the counted text
    is the two counted texts put end to end, so the estimate for the
    whole is at least the estimate for each part and at most their sum. *)
Theorem countTokens_of_concatenation (self : OpenAIContentGenerator)
        (l1 l2 : list ContentItem) :
  extractTextFromRequest {| count_contents := Many (l1 ++ l2) |} =
    extractTextFromRequest {| count_contents := Many l1 |} ++
    extractTextFromRequest {| count_contents := Many l2 |} /\
  exists n1 n2 n,
    countTokens self {| count_contents := Many l1 |} = Returned {| totalTokens := n1 |} /\
    countTokens self {| count_contents := Many l2 |} = Returned {| totalTokens := n2 |} /\
    countTokens self {| count_contents := Many (l1 ++ l2) |}
      = Returned {| totalTokens := n |} /\
    n1 <= n /\ n2 <= n /\ n <= n1 + n2.
Proof.
  split; [apply extractTextFromRequest_app|].
  unfold countTokens. simpl.
  do 3 eexists. repeat split.
  - apply ceil_quarter_monotone. rewrite extractTextFromRequest_app, length_append. lia.
  - apply ceil_quarter_monotone. rewrite extractTextFromRequest_app, length_append. lia.
  - apply ceil_quarter_least. rewrite extractTextFromRequest_app, length_append.
    pose proof (ceil_quarter_bounds
                  (String.length (extractTextFromRequest {| count_contents := Many l1 |}))).
    pose proof (ceil_quarter_bounds
                  (String.length (extractTextFromRequest {| count_contents := Many l2 |}))).
    lia.
Qed.

(** On the same contents, the text [embedContent] sends and the text
    [countTokens] counts agree on what comes first: either both are
    empty, or the counted text starts with the embedded text followed by
    a space. *)
Theorem embedded_text_heads_counted_text (c : ContentListUnion) :
  (extractTextFromEmbedRequest {| embed_contents := c |} = "" /\
   extractTextFromRequest {| count_contents := c |} = "") \/
  (extractTextFromEmbedRequest {| embed_contents := c |} <> "" /\
   exists rest,
     extractTextFromRequest {| count_contents := c |} =
     extractTextFromEmbedRequest {| embed_contents := c |} ++ " " ++ rest).
Proof.
  rewrite extractTextFromEmbedRequest_spec, extractTextFromRequest_spec.
  simpl embed_contents. simpl count_contents.
  unfold firstNonEmpty, spaceTerminated.
  destruct (filter truthy (scannedTexts c)) as [|t l] eqn:Hf.
  - left. split; reflexivity.
  - right. split.
    + assert (Hin : In t (filter truthy (scannedTexts c))) by (rewrite Hf; now left).
      apply filter_In in Hin. now apply truthy_true_iff.
    + exists (String.concat "" (map (fun t => t ++ " ") l)).
      simpl hd. simpl map. rewrite concat_empty_cons. apply append_assoc.
Qed.

(** * Further properties of the registry and the factory *)

Module AdapterFactoryCreation.

Import AdapterFactory.

Lemma registry_entry_iff (p : LLMProvider) (ms : list string) :
  In (p, ms) SUPPORTED_MODELS <-> lookupProvider SUPPORTED_MODELS p = Some ms.
Proof.
  unfold SUPPORTED_MODELS. cbn [In lookupProvider]. split.
  - intros [H|[H|[H|[]]]]; inversion H; subst; reflexivity.
  - destruct p; cbn [provider_eqb]; intros [= <-]; auto.
Qed.

(** [isModelSupported p m] holds exactly when the registry lists [m]
    under [p], that is when [m] is among [getSupportedModels p]; the
    provider that [inferProviderFromModel] finds for a model supports it,
    and it finds none exactly when no provider supports the model. *)
Theorem isModelSupported_iff (p : LLMProvider) (m : string) :
  (isModelSupported p m = true <->
     exists ms, In (p, ms) SUPPORTED_MODELS /\ In m ms) /\
  (isModelSupported p m = true <-> In m (getSupportedModels p)) /\
  (inferProviderFromModel m = Some p -> isModelSupported p m = true) /\
  (inferProviderFromModel m = None <-> forall q, isModelSupported q m = false).
Proof.
  assert (Hfirst : forall q,
             isModelSupported q m = true <->
             exists ms, In (q, ms) SUPPORTED_MODELS /\ In m ms).
  { intros q. unfold isModelSupported. split.
    - destruct (lookupProvider SUPPORTED_MODELS q) as [ms|] eqn:Hl; [|discriminate].
      intros H. exists ms. split; [now apply registry_entry_iff | now apply includes_In].
    - intros (ms & Hentry & Hin). apply registry_entry_iff in Hentry.
      rewrite Hentry. now apply includes_In. }
  split; [apply Hfirst|]. split; [|split].
  - unfold isModelSupported, getSupportedModels.
    destruct (lookupProvider SUPPORTED_MODELS p) as [ms|].
    + apply includes_In.
    + split; [discriminate | intros []].
  - intros H. apply Hfirst.
    destruct (AdapterFactoryFacts.inferFromEntries_found _ _ _ H)
      as (before & models & after & Heq & Hin & _).
    exists models. split; [|exact Hin].
    rewrite Heq. apply in_or_app. right. now left.
  - unfold inferProviderFromModel.
    rewrite AdapterFactoryFacts.inferFromEntries_none. split.
    + intros H q. destruct (isModelSupported q m) eqn:Hq; [|reflexivity].
      apply Hfirst in Hq. destruct Hq as (ms & Hentry & Hin).
      exfalso. exact (H q ms Hentry Hin).
    + intros H q ms Hentry Hin.
      assert (Hq : isModelSupported q m = true) by (apply Hfirst; eauto).
      rewrite H in Hq. discriminate.
Qed.

(** [inferProviderFromModel] never answers VERTEX_AI: the models of
    VERTEX_AI are those of GEMINI, which is declared first, so every
    model that VERTEX_AI supports is inferred as GEMINI. *)
Theorem inferProviderFromModel_never_vertex (m : string) :
  inferProviderFromModel m <> Some VERTEX_AI /\
  isModelSupported VERTEX_AI m = isModelSupported GEMINI m /\
  (isModelSupported VERTEX_AI m = true -> inferProviderFromModel m = Some GEMINI).
Proof.
  unfold inferProviderFromModel, isModelSupported, SUPPORTED_MODELS.
  cbn [inferFromEntries lookupProvider provider_eqb].
  destruct (includes ["gemini-2.5-pro"; "gemini-2.5-flash";
                      "gemini-1.5-pro"; "gemini-1.5-flash"] m).
  - repeat split; discriminate.
  - destruct (includes ["gpt-4"; "gpt-4-turbo"; "gpt-4o"; "gpt-4o-mini";
                        "gpt-3.5-turbo"] m); repeat split; discriminate.
Qed.

Lemma inferProviderFromModel_never_vertex_witness :
  inferProviderFromModel "gemini-1.5-flash" = Some GEMINI.
Proof.
  apply (inferProviderFromModel_never_vertex "gemini-1.5-flash").
  reflexivity.
Defined.

(** [createAdapter] returns an adapter exactly when the API key is not
    empty and the provider is OPENAI. The adapter then holds the key and
    the model of the configuration, the embedding model of the
    configuration or, when that is missing or empty,
    "text-embedding-ada-002", and no base URL: the [baseUrl] of the
    configuration is never passed on. With an empty key the error is
    "API key is required for p provider", whatever the provider; with a
    key and another provider it is "Unsupported LLM provider: p". *)
Theorem createAdapter_outcome (c : DeclaredAdapterConfig) :
  ((exists fields, created (createAdapter c) = Returned fields) <->
     declared_apiKey c <> "" /\ declared_provider c = OPENAI) /\
  (forall fields,
      created (createAdapter c) = Returned fields ->
      fields =
        {| clientOptions := {| option_apiKey := declared_apiKey c;
                               option_baseURL := None |};
           field_model := declared_model c;
           field_embeddingModel :=
             or_else (declared_embeddingModel c) "text-embedding-ada-002" |}) /\
  (declared_apiKey c = "" ->
   created (createAdapter c) =
     Threw (PlainError ("API key is required for " ++
                        provider_value (declared_provider c) ++ " provider"))) /\
  (declared_apiKey c <> "" -> declared_provider c <> OPENAI ->
   created (createAdapter c) =
     Threw (PlainError ("Unsupported LLM provider: " ++
                        provider_value (declared_provider c)))).
Proof.
  unfold createAdapter, truthy.
  destruct (String.eqb_spec (declared_apiKey c) "") as [Hkey|Hkey];
    cbn [negb].
  - cbn [created]. split; [|split; [|split]].
    + split; [intros (f & H); discriminate | intros [H _]; contradiction].
    + discriminate.
    + reflexivity.
    + contradiction.
  - destruct (declared_provider c) eqn:Hp; cbn [created];
      (split; [|split; [|split]]); try contradiction; try congruence.
    + split; [intros (f & H); discriminate | intros [_ H]; discriminate].
    + split; [intros _; auto | intros _; eexists; reflexivity].
    + intros fields [= <-]. unfold newOpenAIContentGenerator. f_equal.
      unfold or_else, truthy_opt, truthy.
      destruct (declared_embeddingModel c) as [e|]; [|reflexivity].
      destruct (e =? ""); reflexivity.
    + split; [intros (f & H); discriminate | intros [_ H]; discriminate].
Qed.

Lemma createAdapter_outcome_witness :
  created (createAdapter {| declared_provider := GEMINI;
                            declared_apiKey := "key";
                            declared_model := "gemini-2.5-pro";
                            declared_embeddingModel := None;
                            declared_vertexai := None;
                            declared_baseUrl := None |}) =
    Threw (PlainError "Unsupported LLM provider: gemini") /\
  created (createAdapter {| declared_provider := OPENAI;
                            declared_apiKey := "";
                            declared_model := "gpt-4";
                            declared_embeddingModel := None;
                            declared_vertexai := None;
                            declared_baseUrl := None |}) =
    Threw (PlainError "API key is required for openai provider").
Proof.
  split.
  - apply (createAdapter_outcome
             {| declared_provider := GEMINI;
                declared_apiKey := "key";
                declared_model := "gemini-2.5-pro";
                declared_embeddingModel := None;
                declared_vertexai := None;
                declared_baseUrl := None |}); discriminate.
  - apply (createAdapter_outcome
             {| declared_provider := OPENAI;
                declared_apiKey := "";
                declared_model := "gpt-4";
                declared_embeddingModel := None;
                declared_vertexai := None;
                declared_baseUrl := None |}); reflexivity.
Defined.

Lemma declared_provider_supported (p : LLMProvider) :
  truthy (provider_value p) && negb (includes getSupportedProviders (provider_value p))
  = false.
Proof. destruct p; reflexivity. Qed.

Lemma declared_valid_iff (c : DeclaredAdapterConfig) :
  valid (validateConfig (asAdapterConfig c)) = true <->
  declared_apiKey c <> "" /\ declared_model c <> "".
Proof.
  rewrite AdapterFactoryFacts.validateConfig_valid,
    AdapterFactoryFacts.validateConfig_errors.
  unfold asAdapterConfig. cbn [provider apiKey model truthy_opt].
  rewrite declared_provider_supported.
  assert (Hp : truthy (provider_value (declared_provider c)) = true)
    by (destruct (declared_provider c); reflexivity).
  rewrite Hp. rewrite <- !truthy_true_iff.
  destruct (truthy (declared_apiKey c)), (truthy (declared_model c));
    simpl; split; try discriminate; try tauto; intros [H1 H2]; discriminate.
Qed.

(** For a declared configuration, [validateConfig] answers valid exactly
    when the key and the model are not empty, whatever the provider; it
    does not decide whether an adapter can be created: a valid
    configuration gets its adapter when the provider is OPENAI and an
    error from [createAdapter] for any other provider, and an OPENAI
    configuration with a key and an empty model is invalid although
    [createAdapter] returns an adapter for it. *)
Theorem validateConfig_and_createAdapter (c : DeclaredAdapterConfig) :
  (valid (validateConfig (asAdapterConfig c)) = true <->
     declared_apiKey c <> "" /\ declared_model c <> "") /\
  (valid (validateConfig (asAdapterConfig c)) = true ->
   declared_provider c = OPENAI ->
   exists fields, created (createAdapter c) = Returned fields) /\
  (valid (validateConfig (asAdapterConfig c)) = true ->
   declared_provider c <> OPENAI ->
   created (createAdapter c) =
     Threw (PlainError ("Unsupported LLM provider: " ++
                        provider_value (declared_provider c)))) /\
  (declared_provider c = OPENAI -> declared_apiKey c <> "" ->
   declared_model c = "" ->
   valid (validateConfig (asAdapterConfig c)) = false /\
   exists fields, created (createAdapter c) = Returned fields).
Proof.
  split; [apply declared_valid_iff|].
  unfold createAdapter, truthy.
  split; [|split].
  - intros [Hkey _]%declared_valid_iff Hp.
    destruct (String.eqb_spec (declared_apiKey c) ""); [contradiction|].
    cbn [negb]. rewrite Hp. eexists. reflexivity.
  - intros [Hkey _]%declared_valid_iff Hp.
    destruct (String.eqb_spec (declared_apiKey c) ""); [contradiction|].
    cbn [negb]. destruct (declared_provider c); try reflexivity. contradiction.
  - intros Hp Hkey Hmodel. split.
    + destruct (valid (validateConfig (asAdapterConfig c))) eqn:Hv; [|reflexivity].
      apply declared_valid_iff in Hv. tauto.
    + destruct (String.eqb_spec (declared_apiKey c) ""); [contradiction|].
      cbn [negb]. rewrite Hp. eexists. reflexivity.
Qed.

Lemma validateConfig_and_createAdapter_witness :
  created (createAdapter {| declared_provider := VERTEX_AI;
                            declared_apiKey := "key";
                            declared_model := "gemini-2.5-pro";
                            declared_embeddingModel := None;
                            declared_vertexai := Some true;
                            declared_baseUrl := None |}) =
    Threw (PlainError "Unsupported LLM provider: vertex-ai") /\
  valid (validateConfig
           (asAdapterConfig {| declared_provider := OPENAI;
                               declared_apiKey := "sk-x";
                               declared_model := "";
                               declared_embeddingModel := None;
                               declared_vertexai := None;
                               declared_baseUrl := None |})) = false.
Proof.
  split.
  - apply (validateConfig_and_createAdapter
             {| declared_provider := VERTEX_AI;
                declared_apiKey := "key";
                declared_model := "gemini-2.5-pro";
                declared_embeddingModel := None;
                declared_vertexai := Some true;
                declared_baseUrl := None |}); [reflexivity | discriminate].
  - apply (validateConfig_and_createAdapter
             {| declared_provider := OPENAI;
                declared_apiKey := "sk-x";
                declared_model := "";
                declared_embeddingModel := None;
                declared_vertexai := None;
                declared_baseUrl := None |}); [reflexivity | discriminate | reflexivity].
Defined.

(** [createAdapter] writes at most one warning, and writes it exactly
    when the key is not empty and the model is not among the supported
    models of the provider: never before the missing-key error, but also
    when the provider is then refused. *)
Theorem createAdapter_warnings (c : DeclaredAdapterConfig) :
  List.length (warnings (createAdapter c)) <= 1 /\
  (forall w,
      In w (warnings (createAdapter c)) <->
      declared_apiKey c <> "" /\
      ~ In (declared_model c) (getSupportedModels (declared_provider c)) /\
      w = "Model " ++ declared_model c ++ " may not be officially supported for " ++
          provider_value (declared_provider c)).
Proof.
  assert (Hsup : isModelSupported (declared_provider c) (declared_model c) = true <->
                 In (declared_model c) (getSupportedModels (declared_provider c))).
  { unfold isModelSupported, getSupportedModels.
    destruct (lookupProvider SUPPORTED_MODELS (declared_provider c)).
    - apply includes_In.
    - split; [discriminate | intros []]. }
  unfold createAdapter, truthy.
  destruct (String.eqb_spec (declared_apiKey c) "") as [Hkey|Hkey]; cbn [negb].
  - cbn [warnings List.length In]. split; [lia|]. intros w. tauto.
  - assert (Hw : warnings
                   (match declared_provider c with
                    | OPENAI =>
                        {| warnings :=
                             if negb (isModelSupported (declared_provider c) (declared_model c))
                             then [ "Model " ++ declared_model c ++
                                    " may not be officially supported for " ++
                                    provider_value (declared_provider c) ]
                             else [];
                           created :=
                             Returned (newOpenAIContentGenerator
                                         (declared_apiKey c) (Some (declared_model c))
                                         (if truthy_opt (declared_embeddingModel c)
                                          then declared_embeddingModel c
                                          else lookupProvider DEFAULT_EMBEDDING_MODELS
                                                              (declared_provider c))
                                         None) |}
                    | _ =>
                        {| warnings :=
                             if negb (isModelSupported (declared_provider c) (declared_model c))
                             then [ "Model " ++ declared_model c ++
                                    " may not be officially supported for " ++
                                    provider_value (declared_provider c) ]
                             else [];
                           created :=
                             Threw (PlainError ("Unsupported LLM provider: " ++
                                                provider_value (declared_provider c))) |}
                    end) =
                 if negb (isModelSupported (declared_provider c) (declared_model c))
                 then [ "Model " ++ declared_model c ++
                        " may not be officially supported for " ++
                        provider_value (declared_provider c) ]
                 else []).
    { destruct (declared_provider c); reflexivity. }
    cbv zeta. rewrite Hw.
    destruct (isModelSupported (declared_provider c) (declared_model c)) eqn:Hs;
      cbn [negb List.length In].
    + split; [lia|]. intros w. split; [intros []|].
      intros (_ & Hnot & _). apply Hnot, Hsup. reflexivity.
    + split; [lia|]. intros w. split.
      * intros [<-|[]]. repeat split; [assumption|].
        intros Hin. apply Hsup in Hin. discriminate.
      * intros (_ & _ & ->). now left.
Qed.

(** The adapter that [createAdapter] returns, once connected, asks the
    vendor for the models of the configuration: chat completions for its
    model, embeddings for its embedding model or, failing one, for
    "text-embedding-ada-002"; and the client is built from the key alone. *)
Theorem created_adapter_calls (connect : ClientOptions -> OpenAIClient)
        (c : DeclaredAdapterConfig) (fields : GeneratorFields) :
  created (createAdapter c) = Returned fields ->
  (forall request response,
      chat_create (connect {| option_apiKey := declared_apiKey c;
                              option_baseURL := None |})
                  (declared_model c) (convertToOpenAIMessages request)
        = Returned response ->
      generateContent (instantiate connect fields) request =
        try_catch (convertToGeminiResponse response) wrapGenerateError) /\
  (forall request response,
      embeddings_create (connect {| option_apiKey := declared_apiKey c;
                                    option_baseURL := None |})
                        (or_else (declared_embeddingModel c) "text-embedding-ada-002")
                        (extractTextFromEmbedRequest request)
        = Returned response ->
      embedContent (instantiate connect fields) request =
        Returned {| embeddings := [ {| values := firstEmbedding response |} ] |}).
Proof.
  intros H.
  assert (Hf : fields =
               {| clientOptions := {| option_apiKey := declared_apiKey c;
                                      option_baseURL := None |};
                  field_model := declared_model c;
                  field_embeddingModel :=
                    or_else (declared_embeddingModel c) "text-embedding-ada-002" |}).
  { revert H. unfold createAdapter.
    destruct (negb (truthy (declared_apiKey c))); cbn [created]; [discriminate|].
    destruct (declared_provider c); cbn [created]; try discriminate.
    intros [= <-]. unfold newOpenAIContentGenerator. f_equal.
    unfold or_else, truthy_opt, truthy.
    destruct (declared_embeddingModel c) as [e|]; [|reflexivity].
    destruct (e =? ""); reflexivity. }
  subst fields. split.
  - intros request response Hcall. unfold generateContent, instantiate.
    simpl. now rewrite Hcall.
  - intros request response Hcall. unfold embedContent, instantiate.
    simpl. now rewrite Hcall.
Qed.

Lemma created_adapter_calls_witness :
  embedContent
    (instantiate (fun _ => xEmbeddingClient)
       (newOpenAIContentGenerator "sk-x" (Some "gpt-4o")
                                  (Some "text-embedding-ada-002") None))
    {| embed_contents := Many [textContent None "x"] |}
  = Returned {| embeddings := [ {| values := [0.5%float; 0.25%float] |} ] |}.
Proof.
  apply (proj2 (created_adapter_calls
                  (fun _ => xEmbeddingClient)
                  {| declared_provider := OPENAI;
                     declared_apiKey := "sk-x";
                     declared_model := "gpt-4o";
                     declared_embeddingModel := Some "";
                     declared_vertexai := None;
                     declared_baseUrl := Some "http://localhost" |}
                  (newOpenAIContentGenerator "sk-x" (Some "gpt-4o")
                                             (Some "text-embedding-ada-002") None)
                  eq_refl)
               {| embed_contents := Many [textContent None "x"] |}
               {| data := [ {| embedding := [0.5%float; 0.25%float] |} ] |}).
  reflexivity.
Defined.

End AdapterFactoryCreation.

(** * Properties of the configuration and of the dispatch *)

Module CoreContentGeneratorFacts.

Import CoreContentGenerator.

Lemma truthy_opt_true_iff (o : option string) :
  truthy_opt o = true <-> exists k, o = Some k /\ k <> "".
Proof.
  destruct o as [s|]; simpl.
  - rewrite truthy_true_iff. split.
    + intros H. exists s. auto.
    + intros (k & [= <-] & H). exact H.
  - split; [discriminate | intros (k & H & _); discriminate].
Qed.

Lemma or_else_nonempty (a : option string) (b : string) :
  b <> "" -> or_else a b <> "".
Proof.
  intros Hb. unfold or_else. destruct a as [s|]; [|exact Hb].
  destruct (truthy s) eqn:Hs; [now apply truthy_true_iff | exact Hb].
Qed.

Lemma firstNonEmpty_cons (a : option string) (l : list string) :
  firstNonEmpty (or_empty a :: l) = or_else a (firstNonEmpty l).
Proof.
  unfold firstNonEmpty, or_empty, or_else. simpl filter.
  destruct a as [s|]; [|reflexivity].
  destruct (truthy s) eqn:Hs; [now rewrite Hs | reflexivity].
Qed.

Lemma firstNonEmpty_one (b : string) : firstNonEmpty [b] = b.
Proof.
  unfold firstNonEmpty. simpl filter.
  destruct (truthy b) eqn:Hb; [reflexivity|].
  apply truthy_false_iff in Hb. now subst.
Qed.

Ltac split_on t H :=
  match goal with
  | |- context [t] => destruct t eqn:H
  | _ => idtac
  end.

Ltac auth_cases a env :=
  unfold createContentGeneratorConfig;
  destruct a as [[| | |]|]; cbn [is_auth andb];
  split_on (truthy_opt (GEMINI_API_KEY env)) ident:(Hgemini);
  split_on (truthy_opt (GOOGLE_API_KEY env)) ident:(Hgoogle);
  split_on (truthy_opt (GOOGLE_CLOUD_PROJECT env)) ident:(Hproject);
  split_on (truthy_opt (GOOGLE_CLOUD_LOCATION env)) ident:(Hlocation);
  split_on (truthy_opt (OPENAI_API_KEY env)) ident:(Hopenai);
  cbn [andb model apiKey vertexai authType openaiBaseURL openaiEmbeddingModel].

Lemma config_key_nonempty (getEffectiveModel : string -> string -> string)
      (env : Process) (m : option string) (a : option AuthType)
      (getModel : option string) (k : string) :
  apiKey (createContentGeneratorConfig getEffectiveModel env m a getModel) = Some k ->
  k <> "".
Proof.
  auth_cases a env; try discriminate; intros Hk.
  - rewrite Hk in Hgemini. now apply truthy_true_iff.
  - rewrite Hk in Hgoogle. now apply truthy_true_iff.
  - rewrite Hk in Hopenai. now apply truthy_true_iff.
Qed.

Lemma config_authType (getEffectiveModel : string -> string -> string)
      (env : Process) (m : option string) (a : option AuthType)
      (getModel : option string) :
  authType (createContentGeneratorConfig getEffectiveModel env m a getModel) = a.
Proof. auth_cases a env; reflexivity. Qed.

(** The configuration built keeps the requested auth type, and it holds
    an API key only of that auth type and never an empty one: the key of
    GEMINI_API_KEY for USE_GEMINI, of GOOGLE_API_KEY for USE_VERTEX_AI, of
    OPENAI_API_KEY for USE_OPENAI; for the personal login and without
    auth type it holds none, whatever the environment has. *)
Theorem config_key_provenance (getEffectiveModel : string -> string -> string)
        (env : Process) (m : option string) (a : option AuthType)
        (getModel : option string) :
  authType (createContentGeneratorConfig getEffectiveModel env m a getModel) = a /\
  (forall k,
      apiKey (createContentGeneratorConfig getEffectiveModel env m a getModel) = Some k ->
      k <> "" /\
      ((a = Some USE_GEMINI /\ GEMINI_API_KEY env = Some k) \/
       (a = Some USE_VERTEX_AI /\ GOOGLE_API_KEY env = Some k) \/
       (a = Some USE_OPENAI /\ OPENAI_API_KEY env = Some k))) /\
  (a = Some LOGIN_WITH_GOOGLE_PERSONAL \/ a = None ->
   apiKey (createContentGeneratorConfig getEffectiveModel env m a getModel) = None).
Proof.
  auth_cases a env; (split; [reflexivity|]); (split; [|try reflexivity]);
    try (intros k Hk; discriminate);
    try (intros [H|H]; discriminate).
  - intros k Hk. apply truthy_opt_true_iff in Hgemini.
    destruct Hgemini as (k' & Hk' & Hne). rewrite Hk' in Hk. injection Hk as <-.
    split; [exact Hne|]. left. auto.
  - intros k Hk. apply truthy_opt_true_iff in Hgoogle.
    destruct Hgoogle as (k' & Hk' & Hne). rewrite Hk' in Hk. injection Hk as <-.
    split; [exact Hne|]. right. left. auto.
  - intros k Hk. apply truthy_opt_true_iff in Hopenai.
    destruct Hopenai as (k' & Hk' & Hne). rewrite Hk' in Hk. injection Hk as <-.
    split; [exact Hne|]. right. right. auto.
Qed.

(** The [vertexai] flag is set, and to true, exactly when the auth type
    is USE_VERTEX_AI and GOOGLE_API_KEY, GOOGLE_CLOUD_PROJECT and
    GOOGLE_CLOUD_LOCATION are all set and not empty; it is never false,
    and a Vertex configuration has a key exactly when it has the flag. *)
Theorem config_vertexai_flag (getEffectiveModel : string -> string -> string)
        (env : Process) (m : option string) (a : option AuthType)
        (getModel : option string) :
  (vertexai (createContentGeneratorConfig getEffectiveModel env m a getModel)
     = Some true <->
   a = Some USE_VERTEX_AI /\
   ~ missing (GOOGLE_API_KEY env) /\
   ~ missing (GOOGLE_CLOUD_PROJECT env) /\
   ~ missing (GOOGLE_CLOUD_LOCATION env)) /\
  vertexai (createContentGeneratorConfig getEffectiveModel env m a getModel)
    <> Some false /\
  (a = Some USE_VERTEX_AI ->
   (apiKey (createContentGeneratorConfig getEffectiveModel env m a getModel) = None <->
    vertexai (createContentGeneratorConfig getEffectiveModel env m a getModel) = None)).
Proof.
  rewrite <- !truthy_opt_false_iff.
  auth_cases a env; (split; [|split]); try discriminate;
    try (split; [discriminate | intros [H _]; discriminate]);
    try (intros _; split; reflexivity);
    try (split; [discriminate | intros (_ & H1 & H2 & H3); congruence]).
  - split; [intros _|reflexivity]. repeat split; congruence.
  - intros _. apply truthy_opt_true_iff in Hgoogle.
    destruct Hgoogle as (k & -> & _). split; discriminate.
Qed.

(** The model of the configuration is never the empty string, provided
    [getEffectiveModel] gives no empty model for a non-empty one: with
    nothing else to go by it is the default model. *)
Theorem config_model_never_empty (getEffectiveModel : string -> string -> string)
        (env : Process) (m : option string) (a : option AuthType)
        (getModel : option string) :
  (forall key name, name <> "" -> getEffectiveModel key name <> "") ->
  model (createContentGeneratorConfig getEffectiveModel env m a getModel) <> "".
Proof.
  intros Hg.
  assert (Hopen : or_else getModel
                          (or_else (OPENAI_MODEL env) (or_else m "gpt-4")) <> "").
  { apply or_else_nonempty, or_else_nonempty, or_else_nonempty. discriminate. }
  assert (Hgem : or_else getModel (or_else m DEFAULT_GEMINI_MODEL) <> "").
  { apply or_else_nonempty, or_else_nonempty. discriminate. }
  auth_cases a env; try assumption; apply Hg; assumption.
Qed.

Lemma config_model_never_empty_witness :
  model (createContentGeneratorConfig
           (fun _ name => name)
           {| GEMINI_API_KEY := Some "g-key"; GOOGLE_API_KEY := None;
              OPENAI_API_KEY := None; OPENAI_MODEL := Some "";
              OPENAI_BASE_URL := None; OPENAI_EMBEDDING_MODEL := None;
              GOOGLE_CLOUD_PROJECT := None; GOOGLE_CLOUD_LOCATION := None;
              CLI_VERSION := None; process_version := "v20.0.0";
              process_platform := "linux"; process_arch := "x64" |}
           (Some "") (Some USE_GEMINI) (Some "")) <> "".
Proof.
  apply (config_model_never_empty
           (fun _ name => name)
           {| GEMINI_API_KEY := Some "g-key"; GOOGLE_API_KEY := None;
              OPENAI_API_KEY := None; OPENAI_MODEL := Some "";
              OPENAI_BASE_URL := None; OPENAI_EMBEDDING_MODEL := None;
              GOOGLE_CLOUD_PROJECT := None; GOOGLE_CLOUD_LOCATION := None;
              CLI_VERSION := None; process_version := "v20.0.0";
              process_platform := "linux"; process_arch := "x64" |}
           (Some "") (Some USE_GEMINI) (Some "")).
  intros key name H. exact H.
Defined.

(** The order in which the model is chosen. For USE_OPENAI it is the
    first non-empty of: the model of the running configuration,
    OPENAI_MODEL, the model asked for, "gpt-4"; [getEffectiveModel] is not
    consulted. For every other auth type OPENAI_MODEL is ignored: the
    candidate is the first non-empty of the running configuration's
    model, the model asked for and the default Gemini model; it is the
    model as it is when the configuration holds no key, and what
    [getEffectiveModel] makes of it for the key otherwise. *)
Theorem config_model_precedence (getEffectiveModel : string -> string -> string)
        (env : Process) (m : option string) (a : option AuthType)
        (getModel : option string) :
  (a = Some USE_OPENAI ->
   model (createContentGeneratorConfig getEffectiveModel env m a getModel) =
     firstNonEmpty [or_empty getModel; or_empty (OPENAI_MODEL env);
                    or_empty m; "gpt-4"]) /\
  (a <> Some USE_OPENAI ->
   apiKey (createContentGeneratorConfig getEffectiveModel env m a getModel) = None ->
   model (createContentGeneratorConfig getEffectiveModel env m a getModel) =
     firstNonEmpty [or_empty getModel; or_empty m; DEFAULT_GEMINI_MODEL]) /\
  (a <> Some USE_OPENAI ->
   forall k,
     apiKey (createContentGeneratorConfig getEffectiveModel env m a getModel) = Some k ->
     model (createContentGeneratorConfig getEffectiveModel env m a getModel) =
       getEffectiveModel k
         (firstNonEmpty [or_empty getModel; or_empty m; DEFAULT_GEMINI_MODEL])).
Proof.
  rewrite !firstNonEmpty_cons, !firstNonEmpty_one.
  auth_cases a env; (split; [|split]);
    try (intros H; discriminate); try (intros H; congruence);
    try (intros _ H; discriminate); try (intros _ k H; discriminate);
    try (intros _ _; reflexivity); try (intros _; reflexivity).
  - intros _ Hk. rewrite Hk in Hgemini. discriminate.
  - intros _ k Hk. rewrite Hk in *. simpl in *. now rewrite Hgemini.
  - intros _ Hk. rewrite Hk in Hgoogle. discriminate.
  - intros _ k Hk. rewrite Hk in *. simpl in *. now rewrite Hgoogle.
Qed.

Lemma config_model_precedence_witness :
  model (createContentGeneratorConfig
           (fun _ name => name)
           {| GEMINI_API_KEY := None; GOOGLE_API_KEY := None;
              OPENAI_API_KEY := Some "sk-x"; OPENAI_MODEL := Some "gpt-4o";
              OPENAI_BASE_URL := None; OPENAI_EMBEDDING_MODEL := None;
              GOOGLE_CLOUD_PROJECT := None; GOOGLE_CLOUD_LOCATION := None;
              CLI_VERSION := None; process_version := "v20.0.0";
              process_platform := "linux"; process_arch := "x64" |}
           (Some "gpt-3.5-turbo") (Some USE_OPENAI) (Some "")) = "gpt-4o".
Proof.
  apply (config_model_precedence
           (fun _ name => name)
           {| GEMINI_API_KEY := None; GOOGLE_API_KEY := None;
              OPENAI_API_KEY := Some "sk-x"; OPENAI_MODEL := Some "gpt-4o";
              OPENAI_BASE_URL := None; OPENAI_EMBEDDING_MODEL := None;
              GOOGLE_CLOUD_PROJECT := None; GOOGLE_CLOUD_LOCATION := None;
              CLI_VERSION := None; process_version := "v20.0.0";
              process_platform := "linux"; process_arch := "x64" |}
           (Some "gpt-3.5-turbo") (Some USE_OPENAI) (Some "")).
  reflexivity.
Defined.

(** The OpenAI generator of an environment. For the auth type USE_OPENAI
    the configuration is built without consulting [getEffectiveModel],
    and [createContentGenerator] ends in the construction of the OpenAI
    generator, whose outcome, returned or thrown, is its own. What it
    hands to that construction: as key OPENAI_API_KEY, or the empty
    string when that is unset or empty; as model the model of the
    configuration; as base URL option OPENAI_BASE_URL when the key is
    there and no option at all otherwise; as embedding model, when the
    key is there, OPENAI_EMBEDDING_MODEL as it is set, be it empty, and
    "text-embedding-ada-002" when it is unset or the key is not there. *)
Theorem openai_generator_from_environment (G : Type) (callees : Callees G)
        (getEffectiveModel : string -> string -> string)
        (env : Process) (m : option string) (getModel : option string) :
  (forall otherCheck,
      createContentGeneratorConfig otherCheck env m (Some USE_OPENAI) getModel =
      createContentGeneratorConfig getEffectiveModel env m (Some USE_OPENAI) getModel) /\
  createContentGenerator callees env
    (createContentGeneratorConfig getEffectiveModel env m (Some USE_OPENAI) getModel) =
  buildOpenAIContentGenerator callees
    {| clientOptions :=
         {| option_apiKey := or_empty (OPENAI_API_KEY env);
            option_baseURL :=
              if truthy_opt (OPENAI_API_KEY env) then OPENAI_BASE_URL env else None |};
       field_model :=
         model (createContentGeneratorConfig getEffectiveModel env m
                                             (Some USE_OPENAI) getModel);
       field_embeddingModel :=
         if truthy_opt (OPENAI_API_KEY env)
         then defaulted (OPENAI_EMBEDDING_MODEL env) "text-embedding-ada-002"
         else "text-embedding-ada-002" |}.
Proof.
  split.
  - intros otherCheck. unfold createContentGeneratorConfig. cbn [is_auth andb].
    destruct (truthy_opt (OPENAI_API_KEY env)); reflexivity.
  - unfold createContentGeneratorConfig. cbn [is_auth andb].
    destruct (truthy_opt (OPENAI_API_KEY env)) eqn:Hkey;
      unfold createContentGenerator, simpleCreateOpenAIContentGenerator,
        newOpenAIContentGenerator;
      cbn [authType apiKey model openaiEmbeddingModel openaiBaseURL defaulted];
      do 3 f_equal.
    unfold or_else, or_empty. destruct (OPENAI_API_KEY env) as [k|]; [|reflexivity].
    simpl in Hkey. now rewrite Hkey.
Qed.

(** The dispatch on a configuration that [createContentGeneratorConfig]
    returned. Without auth type [createContentGenerator] throws its own
    error and calls nothing. With an auth type its outcome is that of
    the one callee it calls, unchanged: for USE_GEMINI and USE_VERTEX_AI
    the Google client, given the very key and flag of the configuration
    (the replacement of an empty key never applies to such a
    configuration); for the personal login the code assist generator,
    given that auth type. Both get the [User-Agent] header, which carries
    CLI_VERSION when it is set and not empty and the version of the
    runtime otherwise. *)
Theorem generator_from_environment (G : Type) (callees : Callees G)
        (getEffectiveModel : string -> string -> string)
        (env : Process) (m : option string) (a : option AuthType)
        (getModel : option string) :
  (a = None ->
   createContentGenerator callees env
     (createContentGeneratorConfig getEffectiveModel env m a getModel) =
   Threw (PlainError
            "Error creating contentGenerator: Unsupported authType: undefined")) /\
  (a = Some USE_GEMINI \/ a = Some USE_VERTEX_AI ->
   createContentGenerator callees env
     (createContentGeneratorConfig getEffectiveModel env m a getModel) =
   newGoogleGenAI callees
     (apiKey (createContentGeneratorConfig getEffectiveModel env m a getModel))
     (vertexai (createContentGeneratorConfig getEffectiveModel env m a getModel))
     ("GeminiCLI/" ++ firstNonEmpty [or_empty (CLI_VERSION env); process_version env] ++
      " (" ++ process_platform env ++ "; " ++ process_arch env ++ ")")) /\
  (a = Some LOGIN_WITH_GOOGLE_PERSONAL ->
   createContentGenerator callees env
     (createContentGeneratorConfig getEffectiveModel env m a getModel) =
   createCodeAssistContentGenerator callees
     ("GeminiCLI/" ++ firstNonEmpty [or_empty (CLI_VERSION env); process_version env] ++
      " (" ++ process_platform env ++ "; " ++ process_arch env ++ ")")
     LOGIN_WITH_GOOGLE_PERSONAL).
Proof.
  rewrite firstNonEmpty_cons, firstNonEmpty_one.
  fold (userAgent env).
  pose proof (config_authType getEffectiveModel env m a getModel) as Hauth.
  pose proof (config_key_nonempty getEffectiveModel env m a getModel) as Hkey.
  unfold createContentGenerator. rewrite Hauth.
  split; [|split].
  - intros ->. reflexivity.
  - intros [-> | ->];
      (destruct (apiKey _) as [k|] eqn:Hk; [|reflexivity]);
      pose proof (Hkey k eq_refl) as Hne;
      (destruct (String.eqb_spec k ""); [contradiction | reflexivity]).
  - intros ->. reflexivity.
Qed.

Lemma generator_from_environment_witness :
  createContentGenerator tracingCallees
    {| GEMINI_API_KEY := Some "g-key"; GOOGLE_API_KEY := None;
       OPENAI_API_KEY := None; OPENAI_MODEL := None;
       OPENAI_BASE_URL := None; OPENAI_EMBEDDING_MODEL := None;
       GOOGLE_CLOUD_PROJECT := None; GOOGLE_CLOUD_LOCATION := None;
       CLI_VERSION := Some ""; process_version := "v20.0.0";
       process_platform := "linux"; process_arch := "x64" |}
    (createContentGeneratorConfig
       (fun _ name => name)
       {| GEMINI_API_KEY := Some "g-key"; GOOGLE_API_KEY := None;
          OPENAI_API_KEY := None; OPENAI_MODEL := None;
          OPENAI_BASE_URL := None; OPENAI_EMBEDDING_MODEL := None;
          GOOGLE_CLOUD_PROJECT := None; GOOGLE_CLOUD_LOCATION := None;
          CLI_VERSION := Some ""; process_version := "v20.0.0";
          process_platform := "linux"; process_arch := "x64" |}
       None (Some USE_GEMINI) None)
  = Returned "google g-key GeminiCLI/v20.0.0 (linux; x64)" /\
  createContentGenerator tracingCallees
    {| GEMINI_API_KEY := Some "g-key"; GOOGLE_API_KEY := None;
       OPENAI_API_KEY := None; OPENAI_MODEL := None;
       OPENAI_BASE_URL := None; OPENAI_EMBEDDING_MODEL := None;
       GOOGLE_CLOUD_PROJECT := None; GOOGLE_CLOUD_LOCATION := None;
       CLI_VERSION := Some ""; process_version := "v20.0.0";
       process_platform := "linux"; process_arch := "x64" |}
    (createContentGeneratorConfig
       (fun _ name => name)
       {| GEMINI_API_KEY := Some "g-key"; GOOGLE_API_KEY := None;
          OPENAI_API_KEY := None; OPENAI_MODEL := None;
          OPENAI_BASE_URL := None; OPENAI_EMBEDDING_MODEL := None;
          GOOGLE_CLOUD_PROJECT := None; GOOGLE_CLOUD_LOCATION := None;
          CLI_VERSION := Some ""; process_version := "v20.0.0";
          process_platform := "linux"; process_arch := "x64" |}
       None (Some LOGIN_WITH_GOOGLE_PERSONAL) None)
  = Threw (PlainError "login refused").
Proof.
  split.
  - apply (generator_from_environment
             string tracingCallees (fun _ name => name)
             {| GEMINI_API_KEY := Some "g-key"; GOOGLE_API_KEY := None;
                OPENAI_API_KEY := None; OPENAI_MODEL := None;
                OPENAI_BASE_URL := None; OPENAI_EMBEDDING_MODEL := None;
                GOOGLE_CLOUD_PROJECT := None; GOOGLE_CLOUD_LOCATION := None;
                CLI_VERSION := Some ""; process_version := "v20.0.0";
                process_platform := "linux"; process_arch := "x64" |}
             None (Some USE_GEMINI) None).
    now left.
  - apply (generator_from_environment
             string tracingCallees (fun _ name => name)
             {| GEMINI_API_KEY := Some "g-key"; GOOGLE_API_KEY := None;
                OPENAI_API_KEY := None; OPENAI_MODEL := None;
                OPENAI_BASE_URL := None; OPENAI_EMBEDDING_MODEL := None;
                GOOGLE_CLOUD_PROJECT := None; GOOGLE_CLOUD_LOCATION := None;
                CLI_VERSION := Some ""; process_version := "v20.0.0";
                process_platform := "linux"; process_arch := "x64" |}
             None (Some LOGIN_WITH_GOOGLE_PERSONAL) None).
    reflexivity.
Defined.

Lemma or_else_missing (a : option string) (b : string) :
  missing a -> or_else a b = b.
Proof. intros [-> | ->]; reflexivity. Qed.

(** With no model from the running configuration, none asked for and no
    OPENAI_MODEL, the configuration takes the model that
    [DEFAULT_MODELS_BY_AUTH_TYPE] lists for its auth type: as it is for
    USE_OPENAI and whenever the configuration holds no key, and through
    [getEffectiveModel] for a Google auth type with its key. *)
Theorem config_default_model (getEffectiveModel : string -> string -> string)
        (env : Process) (m : option string) (t : AuthType)
        (getModel : option string) :
  missing getModel -> missing m -> missing (OPENAI_MODEL env) ->
  (t = USE_OPENAI \/
   apiKey (createContentGeneratorConfig getEffectiveModel env m (Some t) getModel) = None ->
   model (createContentGeneratorConfig getEffectiveModel env m (Some t) getModel) =
     DEFAULT_MODELS_BY_AUTH_TYPE t) /\
  (forall k,
      t <> USE_OPENAI ->
      apiKey (createContentGeneratorConfig getEffectiveModel env m (Some t) getModel)
        = Some k ->
      model (createContentGeneratorConfig getEffectiveModel env m (Some t) getModel) =
        getEffectiveModel k (DEFAULT_MODELS_BY_AUTH_TYPE t)).
Proof.
  intros Hg Hm Ho.
  unfold createContentGeneratorConfig.
  rewrite !(or_else_missing getModel _ Hg), !(or_else_missing m _ Hm),
    (or_else_missing (OPENAI_MODEL env) _ Ho).
  destruct t; cbn [is_auth andb];
    split_on (truthy_opt (GEMINI_API_KEY env)) ident:(Hgemini);
    split_on (truthy_opt (GOOGLE_API_KEY env)) ident:(Hgoogle);
    split_on (truthy_opt (GOOGLE_CLOUD_PROJECT env)) ident:(Hproject);
    split_on (truthy_opt (GOOGLE_CLOUD_LOCATION env)) ident:(Hlocation);
    split_on (truthy_opt (OPENAI_API_KEY env)) ident:(Hopenai);
    cbn [andb model apiKey DEFAULT_MODELS_BY_AUTH_TYPE]; split;
    try (intros _; reflexivity); try (intros k _ H; discriminate);
    try (intros k H; congruence).
  - intros [H|H]; [discriminate|]. rewrite H in Hgemini. discriminate.
  - intros k _ Hk. rewrite Hk. simpl. rewrite Hk in Hgemini. simpl in Hgemini.
    now rewrite Hgemini.
  - intros [H|H]; [discriminate|]. rewrite H in Hgoogle. discriminate.
  - intros k _ Hk. rewrite Hk. simpl. rewrite Hk in Hgoogle. simpl in Hgoogle.
    now rewrite Hgoogle.
Qed.

Lemma config_default_model_witness :
  model (createContentGeneratorConfig
           (fun _ name => name)
           {| GEMINI_API_KEY := None; GOOGLE_API_KEY := None;
              OPENAI_API_KEY := Some "sk-x"; OPENAI_MODEL := Some "";
              OPENAI_BASE_URL := None; OPENAI_EMBEDDING_MODEL := None;
              GOOGLE_CLOUD_PROJECT := None; GOOGLE_CLOUD_LOCATION := None;
              CLI_VERSION := None; process_version := "v20.0.0";
              process_platform := "linux"; process_arch := "x64" |}
           None (Some USE_OPENAI) None) = "gpt-4".
Proof.
  apply (config_default_model
           (fun _ name => name)
           {| GEMINI_API_KEY := None; GOOGLE_API_KEY := None;
              OPENAI_API_KEY := Some "sk-x"; OPENAI_MODEL := Some "";
              OPENAI_BASE_URL := None; OPENAI_EMBEDDING_MODEL := None;
              GOOGLE_CLOUD_PROJECT := None; GOOGLE_CLOUD_LOCATION := None;
              CLI_VERSION := None; process_version := "v20.0.0";
              process_platform := "linux"; process_arch := "x64" |}
           None USE_OPENAI None).
  - now left.
  - now left.
  - now right.
  - now left.
Defined.

End CoreContentGeneratorFacts.

(** * The two factory functions *)

(** The two exported functions [createOpenAIContentGenerator], of
    [openai-content-generator.ts] and of [simple-factory.ts], build the
    same generator from the same arguments: a missing model becomes
    "gpt-4" and a missing embedding model "text-embedding-ada-002", while
    an argument that is given, be it the empty string, is kept; the key
    and the base URL go to the client unchanged. *)
Theorem factory_functions_agree (apiKey : string)
        (model embeddingModel baseURL : option string) :
  simpleCreateOpenAIContentGenerator apiKey model embeddingModel baseURL =
    createOpenAIContentGenerator apiKey model embeddingModel baseURL /\
  clientOptions (createOpenAIContentGenerator apiKey model embeddingModel baseURL) =
    {| option_apiKey := apiKey; option_baseURL := baseURL |} /\
  (forall name, model = Some name ->
     field_model (createOpenAIContentGenerator apiKey model embeddingModel baseURL)
       = name) /\
  (model = None ->
     field_model (createOpenAIContentGenerator apiKey model embeddingModel baseURL)
       = "gpt-4") /\
  (forall name, embeddingModel = Some name ->
     field_embeddingModel
       (createOpenAIContentGenerator apiKey model embeddingModel baseURL) = name) /\
  (embeddingModel = None ->
     field_embeddingModel
       (createOpenAIContentGenerator apiKey model embeddingModel baseURL)
       = "text-embedding-ada-002").
Proof.
  unfold simpleCreateOpenAIContentGenerator, createOpenAIContentGenerator,
    newOpenAIContentGenerator.
  repeat split.
  - intros name ->. reflexivity.
  - intros ->. reflexivity.
  - intros name ->. reflexivity.
  - intros ->. reflexivity.
Qed.
